(** * Authentication.ts: the re-authentication cycle

    A shallow embedding of [src/libs/Authentication.ts] ([Authenticate] and
    [reauthenticate]) together with the collaborators it calls, and the
    properties of one re-authentication cycle: which side effects it
    performs, in which order, and how the returned promise settles. *)

From Stdlib Require Import String List ZArith Bool Lia DecimalString.
Import ListNotations.
Open Scope string_scope.
Open Scope list_scope.

(** ** JavaScript values *)

(** The values that travel through the module: optional strings and
    booleans of the parameter objects, and the [jsonCode] of a response,
    which is compared both with a number literal and with a constant of
    [CONST.JSON_CODE]. *)
Inductive Value : Type :=
  | Undefined
  | Null
  | Bool (b : bool)
  | Num (n : Z)
  | Str (s : string).

(** [a === b] *)
Definition strict_eq (a b : Value) : bool :=
  match a, b with
  | Undefined, Undefined => true
  | Null, Null => true
  | Bool x, Bool y => Bool.eqb x y
  | Num x, Num y => Z.eqb x y
  | Str x, Str y => String.eqb x y
  | _, _ => false
  end.

(** [a ?? b] *)
Definition nullish (a b : Value) : Value :=
  match a with
  | Undefined | Null => b
  | _ => a
  end.

(** ** Data *)

(** The stored partner credentials, [NetworkStore.getCredentials()]. *)
Module Credentials.
Record t : Type := mk {
  autoGeneratedLogin : Value;
  autoGeneratedPassword : Value
}.
End Credentials.

(** [credentials?.field]: [None] is a store without credentials. *)
Definition optional_chain (credentials : option Credentials.t)
    (field : Credentials.t -> Value) : Value :=
  match credentials with
  | Some c => field c
  | None => Undefined
  end.

(** [type Parameters] of [Authenticate].  The type is erased at run time,
    so every field is a [Value] that may be [Undefined]. *)
Module Parameters.
Record t : Type := mk {
  useExpensifyLogin : Value;
  partnerName : Value;
  partnerPassword : Value;
  partnerUserID : Value;
  partnerUserSecret : Value;
  twoFactorAuthCode : Value;
  email : Value;
  authToken : Value
}.
End Parameters.

(** The parameter object [Authenticate] hands to [Network.post]. *)
Module Request.
Record t : Type := mk {
  useExpensifyLogin : Value;
  partnerName : Value;
  partnerPassword : Value;
  partnerUserID : Value;
  partnerUserSecret : Value;
  twoFactorAuthCode : Value;
  authToken : Value;
  shouldRetry : Value;
  forceNetworkRequest : Value;
  email : Value
}.
End Request.

(** The fields of [types/onyx/Response] the module reads. *)
Module Response.
Record t : Type := mk {
  jsonCode : Value;
  authToken : Value;
  encryptedAuthToken : Value
}.
End Response.

(** The session object kept in Onyx. *)
Module Session.
Record t : Type := mk {
  authToken : Value;
  encryptedAuthToken : Value
}.
End Session.

(** The shared mutable state the module works on: the local variables of
    [NetworkStore] and the Onyx session. *)
Module Store.
Record t : Type := mk {
  isAuthenticating : bool;
  credentials : option Credentials.t;
  authToken : Value;
  session : Session.t
}.
End Store.

(** What a [throw] carries. *)
Inductive Error : Type :=
  | MissingParameter (parameterName commandName : string)
  | ErrorMessage (message : string).

(** How the Command Transport settles the promise of a posted command. *)
Inductive Settlement : Type :=
  | Resolves (response : Response.t)
  | Rejects (e : Error).

(** How the promise returned by [reauthenticate] settles. *)
Inductive PromiseResult : Type :=
  | Fulfilled
  | Rejected (e : Error).

(** The calls a cycle makes on its collaborators, in program order. *)
Inductive Event : Type :=
  | SetIsAuthenticating (value : bool)
  | Post (commandName : string) (parameters : Request.t)
  | LogHmmm (message command error : string)
  | RedirectToSignIn (errorMessage : string)
  | UpdateSessionAuthTokens (authToken encryptedAuthToken : Value)
  | SetAuthToken (authToken : Value).

(** ** The effect monad: shared store, event log, exceptions *)

Inductive Outcome (A : Type) : Type :=
  | Ok (a : A)
  | Throw (e : Error).
Arguments Ok {A} a.
Arguments Throw {A} e.

Definition M (A : Type) : Type := Store.t -> Outcome A * Store.t * list Event.

Definition ret {A : Type} (a : A) : M A := fun s => (Ok a, s, []).

Definition throw {A : Type} (e : Error) : M A := fun s => (Throw e, s, []).

Definition bind {A B : Type} (m : M A) (k : A -> M B) : M B :=
  fun s =>
    match m s with
    | (Ok a, s1, log1) =>
        match k a s1 with
        | (o, s2, log2) => (o, s2, log1 ++ log2)
        end
    | (Throw e, s1, log1) => (Throw e, s1, log1)
    end.

Declare Scope m_scope.
Delimit Scope m_scope with m.
Notation "x <- m ;; k" := (bind m (fun x => k))
  (at level 61, m at next level, right associativity) : m_scope.
Notation "m ;; k" := (bind m (fun _ => k))
  (at level 61, right associativity) : m_scope.
Open Scope m_scope.

Definition outcome_of {A : Type} (r : Outcome A * Store.t * list Event) : Outcome A :=
  fst (fst r).
Definition store_of {A : Type} (r : Outcome A * Store.t * list Event) : Store.t :=
  snd (fst r).
Definition log_of {A : Type} (r : Outcome A * Store.t * list Event) : list Event :=
  snd r.

(** The effect of one collaborator call on the store. *)
Definition apply_event (e : Event) (s : Store.t) : Store.t :=
  match e with
  | SetIsAuthenticating value =>
      Store.mk value (Store.credentials s) (Store.authToken s) (Store.session s)
  | SetAuthToken newAuthToken =>
      Store.mk (Store.isAuthenticating s) (Store.credentials s) newAuthToken (Store.session s)
  | UpdateSessionAuthTokens authToken encryptedAuthToken =>
      Store.mk (Store.isAuthenticating s) (Store.credentials s) (Store.authToken s)
        (Session.mk authToken encryptedAuthToken)
  | Post _ _ | LogHmmm _ _ _ | RedirectToSignIn _ => s
  end.

(** The store after a log of calls, oldest first. *)
Definition replay (log : list Event) (s : Store.t) : Store.t :=
  fold_left (fun acc e => apply_event e acc) log s.

Definition call (e : Event) : M unit := fun s => (Ok tt, apply_event e s, [e]).

(** ** Collaborators *)

(** Modelled from the spec: [NetworkStore.setIsAuthenticating] is missing
    from the sources; the Session Store "exposes get/set with no business
    logic", so it overwrites the flag. *)
Definition setIsAuthenticating (value : bool) : M unit :=
  call (SetIsAuthenticating value).

(** Modelled from the spec: [NetworkStore.getCredentials] is missing from
    the sources; a plain read of the stored credentials. *)
Definition getCredentials : M (option Credentials.t) :=
  fun s => (Ok (Store.credentials s), s, []).

(** Modelled from the spec: [NetworkStore.setAuthToken] is missing from the
    sources; it overwrites the local token outbound commands read. *)
Definition setAuthToken (newAuthToken : Value) : M unit :=
  call (SetAuthToken newAuthToken).

(** Modelled from the spec: [NetworkStore.getAuthToken] is missing from the
    sources; the read an outbound command makes for its authorization. *)
Definition getAuthToken (s : Store.t) : Value := Store.authToken s.

(** Modelled from the spec: [updateSessionAuthTokens] is missing from the
    sources; the Session Store's [set(Session)] with both tokens. *)
Definition updateSessionAuthTokens (authToken encryptedAuthToken : Value) : M unit :=
  call (UpdateSessionAuthTokens authToken encryptedAuthToken).

(** Modelled from the spec: [redirectToSignIn] is missing from the sources;
    the Sign-In Redirector is an external callback, recorded as a call. *)
Definition redirectToSignIn (errorMessage : string) : M unit :=
  call (RedirectToSignIn errorMessage).

(** Modelled from the spec: [Log.hmmm] is missing from the sources; a
    diagnostic, recorded as a call. *)
Definition Log_hmmm (message command error : string) : M unit :=
  call (LogHmmm message command error).

(** A parameter is missing when the object carries no value for it. *)
Definition isMissing (v : Value) : bool :=
  match v with
  | Undefined | Null => true
  | _ => false
  end.

(** [parameters[parameterName]] *)
Definition parameter (parameterName : string) (parameters : Parameters.t) : Value :=
  if parameterName =? "useExpensifyLogin" then Parameters.useExpensifyLogin parameters
  else if parameterName =? "partnerName" then Parameters.partnerName parameters
  else if parameterName =? "partnerPassword" then Parameters.partnerPassword parameters
  else if parameterName =? "partnerUserID" then Parameters.partnerUserID parameters
  else if parameterName =? "partnerUserSecret" then Parameters.partnerUserSecret parameters
  else if parameterName =? "twoFactorAuthCode" then Parameters.twoFactorAuthCode parameters
  else if parameterName =? "email" then Parameters.email parameters
  else if parameterName =? "authToken" then Parameters.authToken parameters
  else Undefined.

(** Modelled from the spec: [requireParameters] is missing from the
    sources.  A call without a required parameter "fails fast,
    synchronously": it throws for the first name in [parameterNames] whose
    parameter is missing, and returns otherwise. *)
Definition requireParameters (parameterNames : list string)
    (parameters : Parameters.t) (commandName : string) : M unit :=
  match find (fun name => isMissing (parameter name parameters)) parameterNames with
  | Some name => throw (MissingParameter name commandName)
  | None => ret tt
  end.

(** [promise.then(onFulfilled)]: the callback runs on the response of a
    resolved promise, and an exception it throws rejects the promise
    returned by [then]; a rejection passes the callback by. *)
Definition promise_then (promise : Settlement) (onFulfilled : Response.t -> M unit)
    : M PromiseResult :=
  match promise with
  | Resolves response =>
      fun s =>
        match onFulfilled response s with
        | (Ok _, s1, log1) => (Ok Fulfilled, s1, log1)
        | (Throw e, s1, log1) => (Ok (Rejected e), s1, log1)
        end
  | Rejects e => ret (Rejected e)
  end.

(** ** Counting the calls of a log *)

Definition is_post (e : Event) : bool :=
  match e with Post _ _ => true | _ => false end.
Definition is_redirect (e : Event) : bool :=
  match e with RedirectToSignIn _ => true | _ => false end.
Definition is_session_write (e : Event) : bool :=
  match e with UpdateSessionAuthTokens _ _ => true | _ => false end.
Definition is_token_write (e : Event) : bool :=
  match e with SetAuthToken _ => true | _ => false end.

Definition count (p : Event -> bool) (log : list Event) : nat :=
  length (filter p log).

(** Every posted command carries [shouldRetry: false] and
    [forceNetworkRequest: true]. *)
Definition carries_flags (e : Event) : Prop :=
  match e with
  | Post _ parameters =>
      Request.shouldRetry parameters = Bool false /\
      Request.forceNetworkRequest parameters = Bool true
  | _ => True
  end.

(** The promise failed. *)
Definition is_failure (o : Outcome PromiseResult) : Prop :=
  match o with
  | Ok Fulfilled => False
  | Ok (Rejected _) => True
  | Throw _ => True
  end.

(** A call that only reports: [Log.hmmm]. *)
Definition is_diagnostic (e : Event) : bool :=
  match e with LogHmmm _ _ _ => true | _ => false end.

(** A posted command is the Authenticate command of a cycle started in a
    store holding [credentials]: it names the partner constants and the
    stored login and password, and carries no token, no two-factor code and
    no email. *)
Definition posts_stored_credentials (PARTNER_NAME PARTNER_PASSWORD : Value)
    (credentials : option Credentials.t) (e : Event) : Prop :=
  match e with
  | Post commandName parameters =>
      commandName = "Authenticate" /\
      Request.useExpensifyLogin parameters = Bool false /\
      Request.partnerName parameters = PARTNER_NAME /\
      Request.partnerPassword parameters = PARTNER_PASSWORD /\
      Request.partnerUserID parameters =
        optional_chain credentials Credentials.autoGeneratedLogin /\
      Request.partnerUserSecret parameters =
        optional_chain credentials Credentials.autoGeneratedPassword /\
      Request.twoFactorAuthCode parameters = Undefined /\
      Request.authToken parameters = Undefined /\
      Request.email parameters = Undefined
  | _ => True
  end.

(** ** A sample environment *)

Module Sample.
Definition PARTNER_NAME : Value := Str "chat-expensify-com".
Definition PARTNER_PASSWORD : Value := Str "partner-password".
Definition UNABLE_TO_RETRY : Value := Str "UnableToRetry".

Definition classify (response : Response.t) : string :=
  match Response.jsonCode response with
  | Num 407 => "expired session"
  | _ => "unknown error"
  end.

Definition stored : Credentials.t :=
  Credentials.mk (Str "login-1") (Str "password-1").

(** A store holding credentials and a stale token, no cycle in flight. *)
Definition store : Store.t :=
  Store.mk false (Some stored) (Str "stale") (Session.mk (Str "stale") (Str "stale-enc")).

(** A store without credentials. *)
Definition signed_out : Store.t :=
  Store.mk false None Null (Session.mk Undefined Undefined).

(** Responses of the four kinds a cycle tells apart. *)
Definition ok : Response.t := Response.mk (Num 200) (Str "tok1") (Str "enc1").
Definition ok_without_token : Response.t := Response.mk (Num 200) Undefined Undefined.
Definition expired : Response.t := Response.mk (Num 407) Undefined Undefined.
Definition offline : Response.t := Response.mk UNABLE_TO_RETRY Undefined Undefined.

(** Parameters of a first sign-in that lack [partnerUserSecret]. *)
Definition incomplete : Parameters.t :=
  Parameters.mk (Bool true) PARTNER_NAME PARTNER_PASSWORD (Str "login-1") Undefined
    Undefined (Str "user@example.com") Undefined.

(** A transport that answers every command with [response]. *)
Definition answering (response : Response.t) (_ : string) (_ : Request.t) : Settlement :=
  Resolves response.

(** A transport whose promise is rejected with [e] for every command. *)
Definition rejecting (e : Error) (_ : string) (_ : Request.t) : Settlement :=
  Rejects e.

(** Complete parameters of a first sign-in. *)
Definition complete : Parameters.t :=
  Parameters.mk (Bool true) PARTNER_NAME PARTNER_PASSWORD (Str "login-1") (Str "password-1")
    (Str "123456") (Str "user@example.com") Undefined.
End Sample.

(** ** MoneyRequestParticipantsSplitSelector.js *)

Section ParticipantsSplitSelector.

(** An option row of the selector.  The component looks at its [login]
    only and hands the rest on as it is. *)
Variable OptionData : Type.
Variable login : OptionData -> Value.

(** [props.translate] *)
Variable translate : string -> string.

(** [OptionsListUtils.isCurrentUser] *)
Variable isCurrentUser : OptionData -> bool.

(** [CONST.REPORT.MAXIMUM_PARTICIPANTS] *)
Variable MAXIMUM_PARTICIPANTS : nat.

(** The state [newChatOptions]; [userToInvite] is an option row or
    [null]. *)
Record NewChatOptions : Type := {
  recentReports : list OptionData;
  personalDetails : list OptionData;
  userToInvite : option OptionData
}.

(** One section handed to the [OptionsSelector]. *)
Record OptionsSection : Type := {
  title : Value;
  data : list OptionData;
  shouldShow : bool;
  indexOffset : nat
}.

(** The [useMemo] callback of lines 95-143, with [maxParticipantsReached]
    of line 87.  The last section is written with the shorthand property
    [undefined] in place of a title, so that it has no [title]. *)
Definition sections (participants : list OptionData) (newChatOptions : NewChatOptions)
    : list OptionsSection :=
  let maxParticipantsReached := Nat.eqb (length participants) MAXIMUM_PARTICIPANTS in
  let newSections := [] in
  let indexOffset0 := 0 in
  let newSections :=
    newSections ++ [ {| title := Undefined; data := participants;
                        shouldShow := true; indexOffset := indexOffset0 |} ] in
  let indexOffset1 := indexOffset0 + length participants in
  if maxParticipantsReached then newSections
  else
    let newSections :=
      newSections ++ [ {| title := Str (translate "common.recents");
                          data := recentReports newChatOptions;
                          shouldShow := negb (Nat.eqb (length (recentReports newChatOptions)) 0);
                          indexOffset := indexOffset1 |} ] in
    let indexOffset2 := indexOffset1 + length (recentReports newChatOptions) in
    let newSections :=
      newSections ++ [ {| title := Str (translate "common.contacts");
                          data := personalDetails newChatOptions;
                          shouldShow := negb (Nat.eqb (length (personalDetails newChatOptions)) 0);
                          indexOffset := indexOffset2 |} ] in
    let indexOffset3 := indexOffset2 + length (personalDetails newChatOptions) in
    match userToInvite newChatOptions with
    | Some invited =>
        if negb (isCurrentUser invited) then
          newSections ++ [ {| title := Undefined; data := [invited];
                              shouldShow := true; indexOffset := indexOffset3 |} ]
        else newSections
    | None => newSections
    end.

(** The rows [_.reject] keeps: those with another login than [option]. *)
Definition hasOtherLogin (option selectedOption : OptionData) : bool :=
  negb (strict_eq (login selectedOption) (login option)).

(** [isOptionInList] of [toggleOption]: [_.some] over the participants. *)
Definition isOptionInList (participants : list OptionData) (option : OptionData) : bool :=
  existsb (fun selectedOption => strict_eq (login selectedOption) (login option)) participants.

(** What one [toggleOption] hands out: the list given to
    [props.onAddParticipants] and the search term given to
    [OptionsListUtils.getNewChatOptions]. *)
Record Toggled : Type := {
  newSelectedOptions : list OptionData;
  optionsSearchTerm : string
}.

(** [toggleOption], lines 149-175: [_.reject] drops every participant with
    the option's login, the spread appends the option. *)
Definition toggleOption (participants : list OptionData) (searchTerm : string)
    (option : OptionData) : Toggled :=
  if isOptionInList participants option then
    {| newSelectedOptions :=
         filter (fun selectedOption =>
                   negb (strict_eq (login selectedOption) (login option))) participants;
       optionsSearchTerm := searchTerm |}
  else
    {| newSelectedOptions := participants ++ [option];
       optionsSearchTerm := "" |}.

(** The rows of the sections, counted. *)
Definition rows (l : list OptionsSection) : nat :=
  fold_right (fun sec n => length (data sec) + n) 0 l.

End ParticipantsSplitSelector.

Arguments recentReports {OptionData} _.
Arguments personalDetails {OptionData} _.
Arguments userToInvite {OptionData} _.
Arguments title {OptionData} _.
Arguments data {OptionData} _.
Arguments shouldShow {OptionData} _.
Arguments indexOffset {OptionData} _.
Arguments newSelectedOptions {OptionData} _.
Arguments optionsSearchTerm {OptionData} _.
Arguments sections {OptionData} translate isCurrentUser MAXIMUM_PARTICIPANTS
  participants newChatOptions.
Arguments hasOtherLogin {OptionData} login option selectedOption.
Arguments isOptionInList {OptionData} login participants option.
Arguments toggleOption {OptionData} login participants searchTerm option.
Arguments rows {OptionData} l.

(** Option rows to try the selector on: a login and a display name. *)
Module SampleRows.
Definition login (row : Value * string) : Value := fst row.
Definition ann : Value * string := (Str "ann@example.com", "Ann").
Definition bob : Value * string := (Str "bob@example.com", "Bob").
Definition cat : Value * string := (Str "cat@example.com", "Cat").
Definition me : Value * string := (Str "me@example.com", "Me").
Definition isCurrentUser (row : Value * string) : bool :=
  strict_eq (login row) (Str "me@example.com").
Definition translate (phrase : string) : string := phrase.
Definition found : NewChatOptions (Value * string) :=
  {| recentReports := [bob]; personalDetails := []; userToInvite := Some cat |}.
End SampleRows.

(** ** PolicyUtils.js *)

(** *** The data the helpers are given

    Policies, members, personal details and tags arrive as plain data from
    the store: [undefined], [null], booleans, numbers, strings, arrays and
    objects.  Numbers are the integers; an object is the list of its own
    properties in enumeration order, each key once; methods inherited from
    the prototypes are no data and have no counterpart here. *)
Module JS.

#[warnings="-register-all"]
Inductive t : Type :=
  | Undefined
  | Null
  | Bool (b : bool)
  | Num (n : Z)
  | Str (s : string)
  | Arr (items : list t)
  | Obj (fields : list (string * t)).

(** The truthiness of a value used as a condition. *)
Definition truthy (v : t) : bool :=
  match v with
  | Undefined | Null => false
  | Bool b => b
  | Num n => negb (Z.eqb n 0)
  | Str s => negb (String.eqb s "")
  | Arr _ | Obj _ => true
  end.

(** [v == null] *)
Definition nullish (v : t) : bool :=
  match v with
  | Undefined | Null => true
  | _ => false
  end.

(** [v === c] for a string constant [c]. *)
Definition eqStr (v : t) (c : string) : bool :=
  match v with
  | Str s => String.eqb s c
  | _ => false
  end.

(** The own property [key] of an object's property list. *)
Definition lookup (key : string) (fields : list (string * t)) : option t :=
  match find (fun kv => String.eqb (fst kv) key) fields with
  | Some kv => Some (snd kv)
  | None => None
  end.

Definition own (fields : list (string * t)) (key : string) : t :=
  match lookup key fields with
  | Some v => v
  | None => Undefined
  end.

(** The property key of the array index [i]. *)
Definition indexKey (i : nat) : string := NilEmpty.string_of_uint (Nat.to_uint i).

(** The index below [n] that [key] names, if it names one. *)
Definition indexOf (key : string) (n : nat) : option nat :=
  find (fun i => String.eqb (indexKey i) key) (seq 0 n).

(** The characters of a string, each a string. *)
Definition chars (s : string) : list t :=
  map (fun c => Str (String c EmptyString)) (list_ascii_of_string s).

(** [v[key]] on an array or a string: its length, or the element at an
    index. *)
Definition indexed (items : list t) (key : string) : t :=
  if String.eqb key "length" then Num (Z.of_nat (length items))
  else
    match indexOf key (length items) with
    | Some i => nth i items Undefined
    | None => Undefined
    end.

(** [v[key]]: [None] is the [TypeError] of reading a property of
    [undefined] or [null]. *)
Definition get (v : t) (key : string) : option t :=
  match v with
  | Undefined | Null => None
  | Bool _ | Num _ => Some Undefined
  | Str s => Some (indexed (chars s) key)
  | Arr items => Some (indexed items key)
  | Obj fields => Some (own fields key)
  end.

(** [v[key]] where [v] is known not to be [null] or [undefined]. *)
Definition field (v : t) (key : string) : t :=
  match get v key with
  | Some value => value
  | None => Undefined
  end.

(** [key in Object(v)] for a [v] that is not [null] or [undefined]. *)
Definition has (v : t) (key : string) : bool :=
  match v with
  | Undefined | Null | Bool _ | Num _ => false
  | Str s =>
      String.eqb key "length" ||
      match indexOf key (length (chars s)) with Some _ => true | None => false end
  | Arr items =>
      String.eqb key "length" ||
      match indexOf key (length items) with Some _ => true | None => false end
  | Obj fields =>
      match lookup key fields with Some _ => true | None => false end
  end.

(** Underscore's [isArrayLike]: the elements [v[0] .. v[length - 1]] of a
    value with a numeric [length] between 0 and [MAX_ARRAY_INDEX]. *)
Definition arrayLike (v : t) : option (list t) :=
  match v with
  | Arr items => Some items
  | Str s => Some (chars s)
  | Obj fields =>
      match lookup "length" fields with
      | Some (Num n) =>
          if Z.leb 0 n && Z.leb n 9007199254740991 then
            Some (map (fun i => own fields (indexKey i)) (seq 0 (Z.to_nat n)))
          else None
      | _ => None
      end
  | _ => None
  end.

(** The (value, key) pairs [_.each], [_.filter] and [_.some] visit, in
    order. *)
Definition entries (v : t) : list (t * t) :=
  match arrayLike v with
  | Some items => combine items (map (fun i => Num (Z.of_nat i)) (seq 0 (length items)))
  | None =>
      match v with
      | Obj fields => map (fun kv => (snd kv, Str (fst kv))) fields
      | _ => []
      end
  end.

Definition values (v : t) : list t := map fst (entries v).

(** [_.keys] *)
Definition keys (v : t) : list string :=
  match v with
  | Obj fields => map fst fields
  | Arr items => map indexKey (seq 0 (length items))
  | _ => []
  end.

(** [_.isEmpty] *)
Definition isEmpty (v : t) : bool :=
  match v with
  | Undefined | Null => true
  | Arr items => Nat.eqb (length items) 0
  | Str s => Nat.eqb (String.length s) 0
  | _ => Nat.eqb (length (keys v)) 0
  end.

(** [_.pick(v, key)] for one key. *)
Definition pick (v : t) (key : string) : t :=
  match get v key with
  | None => Obj []
  | Some value => if has v key then Obj [(key, value)] else Obj []
  end.

(** Lodash's [baseGet] along a path of keys that is not empty. *)
Fixpoint baseGet (object : t) (path : list string) : t :=
  match path with
  | [] => object
  | key :: rest =>
      match get object key with
      | None => Undefined
      | Some value => baseGet value rest
      end
  end.

(** [lodashGet(object, path, defaultValue)] for a path given as its
    keys. *)
Definition lodashGet (object : t) (path : list string) (defaultValue : t) : t :=
  match path with
  | [] => defaultValue
  | _ =>
      match baseGet object path with
      | Undefined => defaultValue
      | result => result
      end
  end.

(** [_.some] with a predicate that may throw: it stops at the first
    element the predicate holds of. *)
Fixpoint some (predicate : t -> option bool) (l : list t) : option bool :=
  match l with
  | [] => Some false
  | x :: rest =>
      match predicate x with
      | None => None
      | Some true => Some true
      | Some false => some predicate rest
      end
  end.

(** [_.filter] with a predicate that may throw. *)
Fixpoint filter (predicate : t -> option bool) (l : list t) : option (list t) :=
  match l with
  | [] => Some []
  | x :: rest =>
      match predicate x with
      | None => None
      | Some keep =>
          match filter predicate rest with
          | None => None
          | Some kept => Some (if keep then x :: kept else kept)
          end
      end
  end.

End JS.

Notation "'let?' x := e 'in' k" :=
  (match e with Some x => k | None => None end)
  (at level 10, x name, e at level 100, k at level 200, only parsing).

Section PolicyUtils.

(** [CONST.RED_BRICK_ROAD_PENDING_ACTION.DELETE], [CONST.POLICY.ROLE.ADMIN],
    [CONST.BRICK_ROAD_INDICATOR_STATUS.ERROR],
    [ONYXKEYS.COLLECTION.POLICY_MEMBERS] *)
Variable DELETE : string.
Variable ADMIN : string.
Variable ERROR : string.
Variable POLICY_MEMBERS : string.

(** [CONST.EXPENSIFY_EMAILS] *)
Variable EXPENSIFY_EMAILS : list string.

(** The conversion of a value to a string in a template literal. *)
Variable toString : JS.t -> string.

(** Lodash's [castPath]: the keys a path given as one string stands for on
    an object. *)
Variable castPath : string -> JS.t -> list string.

(** The predicate of [getActivePolicies]. *)
Definition isActivePolicy (policy : JS.t) : option bool :=
  if JS.truthy policy then
    let? isPolicyExpenseChatEnabled := JS.get policy "isPolicyExpenseChatEnabled" in
    let? enabled :=
      (if JS.truthy isPolicyExpenseChatEnabled then Some true
       else let? areChatRoomsEnabled := JS.get policy "areChatRoomsEnabled" in
            Some (JS.truthy areChatRoomsEnabled)) in
    if enabled then
      let? pendingAction := JS.get policy "pendingAction" in
      Some (negb (JS.eqStr pendingAction DELETE))
    else Some false
  else Some false.

(** What the predicate asks of a policy, as one condition. *)
Definition activePolicy (policy : JS.t) : bool :=
  JS.truthy policy
  && (JS.truthy (JS.field policy "isPolicyExpenseChatEnabled")
      || JS.truthy (JS.field policy "areChatRoomsEnabled"))
  && negb (JS.eqStr (JS.field policy "pendingAction") DELETE).

Definition getActivePolicies (policies : JS.t) : option (list JS.t) :=
  JS.filter isActivePolicy (JS.values policies).

Definition hasPolicyMemberError (policyMembers : JS.t) : option bool :=
  JS.some
    (fun member =>
       let? errors := JS.get member "errors" in
       Some (negb (JS.isEmpty errors)))
    (JS.values policyMembers).

Definition hasPolicyErrorFields (policy : JS.t) : bool :=
  existsb (fun fieldErrors => negb (JS.isEmpty fieldErrors))
    (JS.values (JS.lodashGet policy ["errorFields"] (JS.Obj []))).

Definition hasPolicyError (policy : JS.t) : bool :=
  if negb (JS.isEmpty (JS.lodashGet policy ["errors"] (JS.Obj []))) then true
  else hasPolicyErrorFields policy.

Definition hasCustomUnitsError (policy : JS.t) : bool :=
  negb (JS.isEmpty (JS.pick (JS.lodashGet policy ["customUnits"] (JS.Obj [])) "errors")).

Definition getPolicyBrickRoadIndicatorStatus (policy policyMembersCollection : JS.t)
    : option string :=
  let? id := JS.get policy "id" in
  let policyMembers :=
    JS.lodashGet policyMembersCollection
      (castPath (POLICY_MEMBERS ++ toString id) policyMembersCollection) (JS.Obj []) in
  let? memberError := hasPolicyMemberError policyMembers in
  if memberError || hasCustomUnitsError policy || hasPolicyErrorFields policy then Some ERROR
  else Some "".

(** [shouldShowPolicy] returns the value of its [&&] chain: the first
    operand that is not truthy, or the last one. *)
Definition shouldShowPolicy (policy isOffline : JS.t) : option JS.t :=
  if negb (JS.truthy policy) then Some policy
  else
    let? isPolicyExpenseChatEnabled := JS.get policy "isPolicyExpenseChatEnabled" in
    if negb (JS.truthy isPolicyExpenseChatEnabled) then Some isPolicyExpenseChatEnabled
    else
      let? role := JS.get policy "role" in
      if negb (JS.eqStr role ADMIN) then Some (JS.Bool false)
      else if JS.truthy isOffline then Some isOffline
      else
        let? pendingAction := JS.get policy "pendingAction" in
        if negb (JS.eqStr pendingAction DELETE) then Some (JS.Bool true)
        else
          let? errors := JS.get policy "errors" in
          Some (JS.Bool (negb (JS.isEmpty errors))).

Definition isPolicyAdmin (policy : JS.t) : bool :=
  JS.eqStr (JS.lodashGet policy ["role"] JS.Undefined) ADMIN.

Definition isPolicyMember (policyID : string) (policies : JS.t) : bool :=
  existsb (fun policy => JS.eqStr (JS.lodashGet policy ["id"] JS.Undefined) policyID)
    (JS.values policies).

(** One round of the loop of [getIneligibleInvitees]: the email the member
    adds to the list, if it adds one. *)
Definition ineligibleEmail (personalDetails : JS.t) (entry : JS.t * JS.t)
    : option (option JS.t) :=
  let (policyMember, accountID) := entry in
  let? pendingAction := JS.get policyMember "pendingAction" in
  let? skip :=
    (if JS.eqStr pendingAction DELETE then Some true
     else let? errors := JS.get policyMember "errors" in
          Some (negb (JS.isEmpty errors))) in
  if skip then Some None
  else
    let memberEmail :=
      JS.lodashGet personalDetails
        (castPath ("[" ++ toString accountID ++ "].login") personalDetails) JS.Undefined in
    if negb (JS.truthy memberEmail) then Some None
    else Some (Some memberEmail).

(** [_.each] over the members, pushing onto [memberEmailsToExclude]. *)
Fixpoint excludeMembers (personalDetails : JS.t) (members : list (JS.t * JS.t))
    (memberEmailsToExclude : list JS.t) : option (list JS.t) :=
  match members with
  | [] => Some memberEmailsToExclude
  | entry :: rest =>
      let? added := ineligibleEmail personalDetails entry in
      excludeMembers personalDetails rest
        (match added with
         | Some memberEmail => memberEmailsToExclude ++ [memberEmail]
         | None => memberEmailsToExclude
         end)
  end.

Definition getIneligibleInvitees (policyMembers personalDetails : JS.t)
    : option (list JS.t) :=
  excludeMembers personalDetails (JS.entries policyMembers) (map JS.Str EXPENSIFY_EMAILS).

(** [tagKey || _.first(_.keys(policyTags))], for a [tagKey] that is a
    string or left out: [None] is [undefined]. *)
Definition policyTagKey (policyTags : JS.t) (tagKey : option string) : option string :=
  match tagKey with
  | Some key => if negb (String.eqb key "") then Some key else hd_error (JS.keys policyTags)
  | None => hd_error (JS.keys policyTags)
  end.

(** The key an element of an array path stands for. *)
Definition toKey (key : option string) : string :=
  match key with
  | Some k => k
  | None => "undefined"
  end.

Definition getTag (policyTags : JS.t) (tagKey : option string) : JS.t :=
  if JS.isEmpty policyTags then JS.Obj []
  else
    match policyTagKey policyTags tagKey with
    | Some key => JS.lodashGet policyTags (castPath key policyTags) (JS.Obj [])
    | None => JS.lodashGet policyTags [toKey None] (JS.Obj [])
    end.

Definition getTagListName (policyTags : JS.t) : JS.t :=
  if JS.isEmpty policyTags then JS.Str ""
  else
    let policyTagKeys := JS.keys policyTags in
    JS.lodashGet policyTags [toKey (hd_error policyTagKeys); "name"] (JS.Str "").

Definition getTagList (policyTags : JS.t) (tagKey : option string) : JS.t :=
  if JS.isEmpty policyTags then JS.Obj []
  else
    JS.lodashGet policyTags [toKey (policyTagKey policyTags tagKey); "tags"] (JS.Obj []).

Definition isPendingDeletePolicy (policy : JS.t) : option bool :=
  let? pendingAction := JS.get policy "pendingAction" in
  Some (JS.eqStr pendingAction DELETE).

End PolicyUtils.

(** Policies, members, personal details and tags to try the helpers on. *)
Module SamplePolicies.
Definition DELETE : string := "delete".
Definition ADMIN : string := "admin".
Definition ERROR : string := "error".
Definition POLICY_MEMBERS : string := "policyMembers_".
Definition EXPENSIFY_EMAILS : list string :=
  ["concierge@expensify.com"; "help@expensify.com"].

Definition toString (v : JS.t) : string :=
  match v with
  | JS.Str s => s
  | _ => ""
  end.

(** A cast that knows the two deep paths of the sample and takes every
    other path for one key. *)
Definition castPath (path : string) (_ : JS.t) : list string :=
  if String.eqb path "[1].login" then ["1"; "login"]
  else if String.eqb path "[2].login" then ["2"; "login"]
  else [path].

Definition workspace : JS.t :=
  JS.Obj [("id", JS.Str "A"); ("isPolicyExpenseChatEnabled", JS.Bool true);
          ("role", JS.Str "admin")].

Definition deleted : JS.t :=
  JS.Obj [("id", JS.Str "C"); ("isPolicyExpenseChatEnabled", JS.Bool true);
          ("role", JS.Str "admin"); ("pendingAction", JS.Str "delete")].

Definition policies : JS.t :=
  JS.Obj [("policy_A", workspace); ("policy_B", JS.Null); ("policy_C", deleted)].

Definition failure : JS.t := JS.Obj [("170", JS.Str "Unable to add the member")].

Definition members : JS.t :=
  JS.Obj [("1", JS.Obj [("role", JS.Str "admin")]);
          ("2", JS.Obj [("role", JS.Str "user"); ("errors", failure)])].

Definition invalidMembers : JS.t :=
  JS.Obj [("1", JS.Obj [("pendingAction", JS.Str "delete")]);
          ("2", JS.Obj [("errors", failure)])].

Definition membersWithNull : JS.t :=
  JS.Obj [("1", JS.Obj [("role", JS.Str "admin")]); ("2", JS.Null);
          ("3", JS.Obj [("errors", failure)])].

Definition personalDetails : JS.t :=
  JS.Obj [("1", JS.Obj [("login", JS.Str "ann@example.com")]);
          ("2", JS.Obj [("login", JS.Str "bob@example.com")])].

(** A policy whose distance unit holds errors of its own. *)
Definition withUnitErrors : JS.t :=
  JS.Obj [("id", JS.Str "A");
          ("customUnits",
           JS.Obj [("U1", JS.Obj [("name", JS.Str "Distance"); ("errors", failure)])])].

Definition tags : JS.t :=
  JS.Obj [("Department",
           JS.Obj [("name", JS.Str "Department");
                   ("tags", JS.Obj [("Sales", JS.Obj [("enabled", JS.Bool true)])])])].
End SamplePolicies.

(** ** Authentication.ts *)

Section Authentication.

(** [CONFIG.EXPENSIFY.PARTNER_NAME], [CONFIG.EXPENSIFY.PARTNER_PASSWORD] *)
Variable PARTNER_NAME : Value.
Variable PARTNER_PASSWORD : Value.

(** [CONST.JSON_CODE.UNABLE_TO_RETRY] *)
Variable UNABLE_TO_RETRY : Value.

(** [ErrorUtils.getAuthenticateErrorMessage], the Error Classifier. *)
Variable getAuthenticateErrorMessage : Response.t -> string.

(** The Command Transport: how it will settle a posted command. *)
Variable transport : string -> Request.t -> Settlement.

(** [Network.post]: hands the command to the transport and returns its
    promise. *)
Definition Network_post (commandName : string) (parameters : Request.t) : M Settlement :=
  call (Post commandName parameters) ;;
  ret (transport commandName parameters).

(** The object literal of lines 28-46. *)
Definition authenticateBody (parameters : Parameters.t) : Request.t :=
  {| Request.useExpensifyLogin := Parameters.useExpensifyLogin parameters;
     Request.partnerName := Parameters.partnerName parameters;
     Request.partnerPassword := Parameters.partnerPassword parameters;
     Request.partnerUserID := Parameters.partnerUserID parameters;
     Request.partnerUserSecret := Parameters.partnerUserSecret parameters;
     Request.twoFactorAuthCode := Parameters.twoFactorAuthCode parameters;
     Request.authToken := Parameters.authToken parameters;
     Request.shouldRetry := Bool false;
     Request.forceNetworkRequest := Bool true;
     Request.email := Parameters.email parameters |}.

(** The first parameter [Authenticate] requires and does not get. *)
Definition missingParameter (parameters : Parameters.t) : option string :=
  find (fun name => isMissing (parameter name parameters))
    ["partnerName"; "partnerPassword"; "partnerUserID"; "partnerUserSecret"].

Definition Authenticate (parameters : Parameters.t) : M Settlement :=
  let commandName := "Authenticate" in
  requireParameters ["partnerName"; "partnerPassword"; "partnerUserID"; "partnerUserSecret"]
    parameters commandName ;;
  Network_post commandName (authenticateBody parameters).

(** The object literal of lines 58-64. *)
Definition reauthenticateParameters (credentials : option Credentials.t) : Parameters.t :=
  {| Parameters.useExpensifyLogin := Bool false;
     Parameters.partnerName := PARTNER_NAME;
     Parameters.partnerPassword := PARTNER_PASSWORD;
     Parameters.partnerUserID := optional_chain credentials Credentials.autoGeneratedLogin;
     Parameters.partnerUserSecret := optional_chain credentials Credentials.autoGeneratedPassword;
     Parameters.twoFactorAuthCode := Undefined;
     Parameters.email := Undefined;
     Parameters.authToken := Undefined |}.

(** The synchronous part of [reauthenticate], lines 54-64: up to the
    promise [Authenticate] returns. *)
Definition reauthenticate_request : M Settlement :=
  setIsAuthenticating true ;;
  credentials <- getCredentials ;;
  Authenticate (reauthenticateParameters credentials).

(** The callback given to [then], lines 64-97. *)
Definition reauthenticate_callback (command : string) (response : Response.t) : M unit :=
  if strict_eq (Response.jsonCode response) UNABLE_TO_RETRY then
    setIsAuthenticating false ;;
    throw (ErrorMessage "Unable to retry Authenticate request")
  else if negb (strict_eq (Response.jsonCode response) (Num 200)) then
    let errorMessage := getAuthenticateErrorMessage response in
    setIsAuthenticating false ;;
    Log_hmmm "Redirecting to Sign In because we failed to reauthenticate" command errorMessage ;;
    redirectToSignIn errorMessage
  else
    updateSessionAuthTokens (Response.authToken response) (Response.encryptedAuthToken response) ;;
    setAuthToken (nullish (Response.authToken response) Null) ;;
    setIsAuthenticating false.

Definition reauthenticate (command : string) : M PromiseResult :=
  promise <- reauthenticate_request ;;
  promise_then promise (reauthenticate_callback command).

(** The request a cycle started in store [s] posts. *)
Definition cycleRequest (s : Store.t) : Request.t :=
  authenticateBody (reauthenticateParameters (Store.credentials s)).

(** The parameters of the cycle started in store [s] pass the check of
    [Authenticate]. *)
Definition credentialsSupplied (s : Store.t) : Prop :=
  missingParameter (reauthenticateParameters (Store.credentials s)) = None.

(** [n] callers run the synchronous part of [reauthenticate] one after the
    other, before the transport has answered any of them. *)
Fixpoint callers (n : nat) : M unit :=
  match n with
  | O => ret tt
  | S k => reauthenticate_request ;; callers k
  end.

(** [n] callers have started a cycle each, and then the callback of one of
    them runs on [response], the other cycles still awaiting theirs. *)
Definition overlapping (n : nat) (command : string) (response : Response.t) : M unit :=
  callers n ;; reauthenticate_callback command response.


(** ** Basic facts *)

Lemma strict_eq_true_iff (a b : Value) : strict_eq a b = true <-> a = b.
Proof.
  destruct a, b; simpl; split; intro H; try discriminate; try reflexivity.
  - apply Bool.eqb_prop in H. now subst.
  - injection H as ->. apply Bool.eqb_reflx.
  - apply Z.eqb_eq in H. now subst.
  - injection H as ->. apply Z.eqb_refl.
  - apply String.eqb_eq in H. now subst.
  - injection H as ->. apply String.eqb_refl.
Qed.

Lemma strict_eq_false_iff (a b : Value) : strict_eq a b = false <-> a <> b.
Proof.
  rewrite <- strict_eq_true_iff. destruct (strict_eq a b); split; intro H;
    try reflexivity; try discriminate; try congruence.
Qed.

Lemma strict_eq_refl (a : Value) : strict_eq a a = true.
Proof. now apply strict_eq_true_iff. Qed.

Lemma replay_app (log1 log2 : list Event) (s : Store.t) :
  replay (log1 ++ log2) s = replay log2 (replay log1 s).
Proof. unfold replay. apply fold_left_app. Qed.

Lemma count_app (p : Event -> bool) (log1 log2 : list Event) :
  count p (log1 ++ log2) = count p log1 + count p log2.
Proof. unfold count. now rewrite filter_app, length_app. Qed.

(** *** [Authenticate] *)

Lemma Authenticate_sends (parameters : Parameters.t) (s : Store.t) :
  missingParameter parameters = None ->
  Authenticate parameters s =
    (Ok (transport "Authenticate" (authenticateBody parameters)), s,
     [Post "Authenticate" (authenticateBody parameters)]).
Proof.
  intro H. unfold Authenticate, requireParameters, bind.
  fold (missingParameter parameters). rewrite H. reflexivity.
Qed.

Lemma Authenticate_throws (parameters : Parameters.t) (name : string) (s : Store.t) :
  missingParameter parameters = Some name ->
  Authenticate parameters s = (Throw (MissingParameter name "Authenticate"), s, []).
Proof.
  intro H. unfold Authenticate, requireParameters, bind.
  fold (missingParameter parameters). rewrite H. reflexivity.
Qed.

Lemma missingParameter_required (parameters : Parameters.t) (name : string) :
  missingParameter parameters = Some name ->
  In name ["partnerName"; "partnerPassword"; "partnerUserID"; "partnerUserSecret"] /\
  isMissing (parameter name parameters) = true.
Proof. intro H. apply find_some in H. exact H. Qed.

Lemma missingParameter_none (parameters : Parameters.t) :
  missingParameter parameters = None <->
  isMissing (Parameters.partnerName parameters) = false /\
  isMissing (Parameters.partnerPassword parameters) = false /\
  isMissing (Parameters.partnerUserID parameters) = false /\
  isMissing (Parameters.partnerUserSecret parameters) = false.
Proof.
  unfold missingParameter, parameter. simpl.
  destruct (isMissing (Parameters.partnerName parameters));
    destruct (isMissing (Parameters.partnerPassword parameters));
    destruct (isMissing (Parameters.partnerUserID parameters));
    destruct (isMissing (Parameters.partnerUserSecret parameters));
    simpl; split; intro H; try reflexivity; try discriminate H;
    try (now repeat split); destruct H as (H1 & H2 & H3 & H4); discriminate.
Qed.

(** *** The synchronous part of a cycle *)

Lemma reauthenticate_request_sends (s : Store.t) :
  credentialsSupplied s ->
  reauthenticate_request s =
    (Ok (transport "Authenticate" (cycleRequest s)),
     apply_event (SetIsAuthenticating true) s,
     [SetIsAuthenticating true; Post "Authenticate" (cycleRequest s)]).
Proof.
  intro H. unfold reauthenticate_request, bind, setIsAuthenticating, call, getCredentials.
  simpl. rewrite Authenticate_sends by exact H. reflexivity.
Qed.

Lemma reauthenticate_request_throws (s : Store.t) (name : string) :
  missingParameter (reauthenticateParameters (Store.credentials s)) = Some name ->
  reauthenticate_request s =
    (Throw (MissingParameter name "Authenticate"),
     apply_event (SetIsAuthenticating true) s,
     [SetIsAuthenticating true]).
Proof.
  intro H. unfold reauthenticate_request, bind, setIsAuthenticating, call, getCredentials.
  simpl. rewrite (Authenticate_throws _ name) by exact H. reflexivity.
Qed.

(** *** The callback of a cycle *)

Lemma callback_retryable (command : string) (response : Response.t) (s : Store.t) :
  Response.jsonCode response = UNABLE_TO_RETRY ->
  reauthenticate_callback command response s =
    (Throw (ErrorMessage "Unable to retry Authenticate request"),
     apply_event (SetIsAuthenticating false) s,
     [SetIsAuthenticating false]).
Proof.
  intro H. unfold reauthenticate_callback. rewrite H, strict_eq_refl. reflexivity.
Qed.

Lemma callback_terminal (command : string) (response : Response.t) (s : Store.t) :
  Response.jsonCode response <> UNABLE_TO_RETRY ->
  Response.jsonCode response <> Num 200 ->
  reauthenticate_callback command response s =
    (Ok tt,
     apply_event (SetIsAuthenticating false) s,
     [SetIsAuthenticating false;
      LogHmmm "Redirecting to Sign In because we failed to reauthenticate" command
        (getAuthenticateErrorMessage response);
      RedirectToSignIn (getAuthenticateErrorMessage response)]).
Proof.
  intros H1 H2. unfold reauthenticate_callback.
  apply strict_eq_false_iff in H1, H2. rewrite H1, H2. reflexivity.
Qed.

Lemma callback_success (command : string) (response : Response.t) (s : Store.t) :
  Response.jsonCode response <> UNABLE_TO_RETRY ->
  Response.jsonCode response = Num 200 ->
  reauthenticate_callback command response s =
    (Ok tt,
     Store.mk false (Store.credentials s) (nullish (Response.authToken response) Null)
       (Session.mk (Response.authToken response) (Response.encryptedAuthToken response)),
     [UpdateSessionAuthTokens (Response.authToken response) (Response.encryptedAuthToken response);
      SetAuthToken (nullish (Response.authToken response) Null);
      SetIsAuthenticating false]).
Proof.
  intros H1 H2. unfold reauthenticate_callback.
  apply strict_eq_false_iff in H1. rewrite H1, H2. reflexivity.
Qed.

(** *** A whole cycle, by outcome of the transport *)

Lemma reauthenticate_thrown (command : string) (s : Store.t) (name : string) :
  missingParameter (reauthenticateParameters (Store.credentials s)) = Some name ->
  reauthenticate command s =
    (Throw (MissingParameter name "Authenticate"),
     apply_event (SetIsAuthenticating true) s,
     [SetIsAuthenticating true]).
Proof.
  intro H. unfold reauthenticate, bind.
  rewrite (reauthenticate_request_throws s name H). reflexivity.
Qed.

Lemma reauthenticate_transport_rejects (command : string) (s : Store.t) (e : Error) :
  credentialsSupplied s ->
  transport "Authenticate" (cycleRequest s) = Rejects e ->
  reauthenticate command s =
    (Ok (Rejected e),
     apply_event (SetIsAuthenticating true) s,
     [SetIsAuthenticating true; Post "Authenticate" (cycleRequest s)]).
Proof.
  intros Hc Ht. unfold reauthenticate, bind.
  rewrite (reauthenticate_request_sends s Hc), Ht. reflexivity.
Qed.

Lemma reauthenticate_retryable (command : string) (s : Store.t) (response : Response.t) :
  credentialsSupplied s ->
  transport "Authenticate" (cycleRequest s) = Resolves response ->
  Response.jsonCode response = UNABLE_TO_RETRY ->
  reauthenticate command s =
    (Ok (Rejected (ErrorMessage "Unable to retry Authenticate request")),
     Store.mk false (Store.credentials s) (Store.authToken s) (Store.session s),
     [SetIsAuthenticating true; Post "Authenticate" (cycleRequest s);
      SetIsAuthenticating false]).
Proof.
  intros Hc Ht Hj. unfold reauthenticate, bind.
  rewrite (reauthenticate_request_sends s Hc), Ht. unfold promise_then.
  rewrite (callback_retryable command response _ Hj). reflexivity.
Qed.

Lemma reauthenticate_terminal (command : string) (s : Store.t) (response : Response.t) :
  credentialsSupplied s ->
  transport "Authenticate" (cycleRequest s) = Resolves response ->
  Response.jsonCode response <> UNABLE_TO_RETRY ->
  Response.jsonCode response <> Num 200 ->
  reauthenticate command s =
    (Ok Fulfilled,
     Store.mk false (Store.credentials s) (Store.authToken s) (Store.session s),
     [SetIsAuthenticating true; Post "Authenticate" (cycleRequest s);
      SetIsAuthenticating false;
      LogHmmm "Redirecting to Sign In because we failed to reauthenticate" command
        (getAuthenticateErrorMessage response);
      RedirectToSignIn (getAuthenticateErrorMessage response)]).
Proof.
  intros Hc Ht H1 H2. unfold reauthenticate, bind.
  rewrite (reauthenticate_request_sends s Hc), Ht. unfold promise_then.
  rewrite (callback_terminal command response _ H1 H2). reflexivity.
Qed.

Lemma reauthenticate_success (command : string) (s : Store.t) (response : Response.t) :
  credentialsSupplied s ->
  transport "Authenticate" (cycleRequest s) = Resolves response ->
  Response.jsonCode response <> UNABLE_TO_RETRY ->
  Response.jsonCode response = Num 200 ->
  reauthenticate command s =
    (Ok Fulfilled,
     Store.mk false (Store.credentials s) (nullish (Response.authToken response) Null)
       (Session.mk (Response.authToken response) (Response.encryptedAuthToken response)),
     [SetIsAuthenticating true; Post "Authenticate" (cycleRequest s);
      UpdateSessionAuthTokens (Response.authToken response) (Response.encryptedAuthToken response);
      SetAuthToken (nullish (Response.authToken response) Null);
      SetIsAuthenticating false]).
Proof.
  intros Hc Ht H1 H2. unfold reauthenticate, bind.
  rewrite (reauthenticate_request_sends s Hc), Ht. unfold promise_then.
  rewrite (callback_success command response _ H1 H2). reflexivity.
Qed.

(** The five ways a cycle can go, each with its outcome, final store and
    log.  Every later statement about "all outcomes" rests on this. *)
Lemma reauthenticate_cases (command : string) (s : Store.t) :
  (exists name,
      missingParameter (reauthenticateParameters (Store.credentials s)) = Some name /\
      reauthenticate command s =
        (Throw (MissingParameter name "Authenticate"),
         apply_event (SetIsAuthenticating true) s,
         [SetIsAuthenticating true]))
  \/ (exists e,
      transport "Authenticate" (cycleRequest s) = Rejects e /\
      reauthenticate command s =
        (Ok (Rejected e),
         apply_event (SetIsAuthenticating true) s,
         [SetIsAuthenticating true; Post "Authenticate" (cycleRequest s)]))
  \/ (exists response,
      transport "Authenticate" (cycleRequest s) = Resolves response /\
      Response.jsonCode response = UNABLE_TO_RETRY /\
      reauthenticate command s =
        (Ok (Rejected (ErrorMessage "Unable to retry Authenticate request")),
         Store.mk false (Store.credentials s) (Store.authToken s) (Store.session s),
         [SetIsAuthenticating true; Post "Authenticate" (cycleRequest s);
          SetIsAuthenticating false]))
  \/ (exists response,
      transport "Authenticate" (cycleRequest s) = Resolves response /\
      Response.jsonCode response <> UNABLE_TO_RETRY /\
      Response.jsonCode response <> Num 200 /\
      reauthenticate command s =
        (Ok Fulfilled,
         Store.mk false (Store.credentials s) (Store.authToken s) (Store.session s),
         [SetIsAuthenticating true; Post "Authenticate" (cycleRequest s);
          SetIsAuthenticating false;
          LogHmmm "Redirecting to Sign In because we failed to reauthenticate" command
            (getAuthenticateErrorMessage response);
          RedirectToSignIn (getAuthenticateErrorMessage response)]))
  \/ (exists response,
      transport "Authenticate" (cycleRequest s) = Resolves response /\
      Response.jsonCode response <> UNABLE_TO_RETRY /\
      Response.jsonCode response = Num 200 /\
      reauthenticate command s =
        (Ok Fulfilled,
         Store.mk false (Store.credentials s) (nullish (Response.authToken response) Null)
           (Session.mk (Response.authToken response) (Response.encryptedAuthToken response)),
         [SetIsAuthenticating true; Post "Authenticate" (cycleRequest s);
          UpdateSessionAuthTokens (Response.authToken response)
            (Response.encryptedAuthToken response);
          SetAuthToken (nullish (Response.authToken response) Null);
          SetIsAuthenticating false])).
Proof.
  destruct (missingParameter (reauthenticateParameters (Store.credentials s)))
    as [name|] eqn:Hm.
  { left. exists name. split; [reflexivity|]. now apply reauthenticate_thrown. }
  right.
  destruct (transport "Authenticate" (cycleRequest s)) as [response|e] eqn:Ht.
  2:{ left. exists e. split; [reflexivity|]. now apply (reauthenticate_transport_rejects command s e). }
  right.
  destruct (strict_eq (Response.jsonCode response) UNABLE_TO_RETRY) eqn:H1.
  { apply strict_eq_true_iff in H1. left. exists response.
    repeat split; trivial. now apply (reauthenticate_retryable command s response). }
  apply strict_eq_false_iff in H1. right.
  destruct (strict_eq (Response.jsonCode response) (Num 200)) eqn:H2.
  - apply strict_eq_true_iff in H2. right. exists response.
    repeat split; trivial. now apply (reauthenticate_success command s response).
  - apply strict_eq_false_iff in H2. left. exists response.
    repeat split; trivial. now apply (reauthenticate_terminal command s response).
Qed.

(** Splits a goal about [reauthenticate command s] along
    [reauthenticate_cases]; [E] is the equation of the case at hand. *)
Ltac by_cycle_cases command s :=
  let n := fresh "name" in
  let e := fresh "e" in
  let r := fresh "r" in
  destruct (reauthenticate_cases command s)
    as [(n & Hmissing & E) | [(e & Ht & E) | [(r & Ht & Hj & E)
       | [(r & Ht & H1 & H2 & E) | (r & Ht & H1 & H2 & E)]]]].

(** The store a cycle leaves is the store its calls build, one by one. *)
Lemma reauthenticate_store_replay (command : string) (s : Store.t) :
  store_of (reauthenticate command s) = replay (log_of (reauthenticate command s)) s.
Proof.
  by_cycle_cases command s; rewrite E; reflexivity.
Qed.

(** Whenever the transport answers the cycle's command with a response,
    whatever its [jsonCode], the flag is clear afterwards. *)
Lemma reauthenticate_response_clears_flag
    (command : string) (s : Store.t) (response : Response.t) :
  credentialsSupplied s ->
  transport "Authenticate" (cycleRequest s) = Resolves response ->
  Store.isAuthenticating (store_of (reauthenticate command s)) = false.
Proof.
  intros Hc Hnet.
  by_cycle_cases command s; try (rewrite E; reflexivity).
  - unfold credentialsSupplied in Hc. congruence.
  - congruence.
Qed.

(** A rejection of the transport's promise passes the callback by, so the
    flag stays set. *)
Lemma reauthenticate_transport_rejection_keeps_flag
    (command : string) (s : Store.t) (e : Error) :
  credentialsSupplied s ->
  transport "Authenticate" (cycleRequest s) = Rejects e ->
  Store.isAuthenticating (store_of (reauthenticate command s)) = true.
Proof.
  intros Hc Ht. rewrite (reauthenticate_transport_rejects command s e Hc Ht). reflexivity.
Qed.

(** ** The claims *)

(** C1 (evaluation of the code on the failing path).  When the parameter
    check of [Authenticate] throws, which it does for a store without
    complete credentials, [reauthenticate] has already set
    [isAuthenticating] and nothing clears it: the exception leaves
    [reauthenticate] with the flag still [true], and no command was
    posted. *)
Theorem reauthenticate_throw_leaves_flag_set
    (command : string) (s : Store.t) (name : string) :
  missingParameter (reauthenticateParameters (Store.credentials s)) = Some name ->
  outcome_of (reauthenticate command s) = Throw (MissingParameter name "Authenticate") /\
  Store.isAuthenticating (store_of (reauthenticate command s)) = true /\
  count is_post (log_of (reauthenticate command s)) = 0.
Proof.
  intro H. rewrite (reauthenticate_thrown command s name H). repeat split.
Qed.

(** C2 (amended).  For a response whose [jsonCode] is neither 200 nor
    [UNABLE_TO_RETRY], the cycle clears [isAuthenticating], calls the
    Sign-In Redirector exactly once, with the classifier's message for that
    response, writes neither the session nor the token, and the returned
    promise is fulfilled (with no value): it does not fail. *)
Theorem reauthenticate_terminal_redirects_and_fulfils
    (command : string) (s : Store.t) (response : Response.t) :
  credentialsSupplied s ->
  transport "Authenticate" (cycleRequest s) = Resolves response ->
  Response.jsonCode response <> Num 200 ->
  Response.jsonCode response <> UNABLE_TO_RETRY ->
  let result := reauthenticate command s in
  Store.isAuthenticating (store_of result) = false /\
  count is_redirect (log_of result) = 1 /\
  In (RedirectToSignIn (getAuthenticateErrorMessage response)) (log_of result) /\
  count is_session_write (log_of result) = 0 /\
  count is_token_write (log_of result) = 0 /\
  outcome_of result = Ok Fulfilled.
Proof.
  intros Hc Ht H2 H1 result. subst result.
  rewrite (reauthenticate_terminal command s response Hc Ht H1 H2).
  repeat split. simpl. tauto.
Qed.

(** C3.  For a response whose [jsonCode] is [UNABLE_TO_RETRY], the cycle
    clears [isAuthenticating], the returned promise is rejected with the
    error "Unable to retry Authenticate request", the Sign-In Redirector is
    not called, and neither the session nor the token is written. *)
Theorem reauthenticate_unable_to_retry
    (command : string) (s : Store.t) (response : Response.t) :
  credentialsSupplied s ->
  transport "Authenticate" (cycleRequest s) = Resolves response ->
  Response.jsonCode response = UNABLE_TO_RETRY ->
  let result := reauthenticate command s in
  Store.isAuthenticating (store_of result) = false /\
  outcome_of result = Ok (Rejected (ErrorMessage "Unable to retry Authenticate request")) /\
  is_failure (outcome_of result) /\
  count is_redirect (log_of result) = 0 /\
  count is_session_write (log_of result) = 0 /\
  count is_token_write (log_of result) = 0 /\
  Store.session (store_of result) = Store.session s /\
  Store.authToken (store_of result) = Store.authToken s.
Proof.
  intros Hc Ht Hj result. subst result.
  rewrite (reauthenticate_retryable command s response Hc Ht Hj).
  repeat split.
Qed.

(** C4.  For a response whose [jsonCode] is 200, the cycle calls
    [updateSessionAuthTokens] with the response's [authToken] and
    [encryptedAuthToken], so that the session holds both, clears
    [isAuthenticating], fulfils the returned promise, and does not call the
    Sign-In Redirector. *)
Theorem reauthenticate_success_writes_session
    (command : string) (s : Store.t) (response : Response.t) :
  UNABLE_TO_RETRY <> Num 200 ->
  credentialsSupplied s ->
  transport "Authenticate" (cycleRequest s) = Resolves response ->
  Response.jsonCode response = Num 200 ->
  let result := reauthenticate command s in
  In (UpdateSessionAuthTokens (Response.authToken response)
        (Response.encryptedAuthToken response)) (log_of result) /\
  Store.session (store_of result) =
    Session.mk (Response.authToken response) (Response.encryptedAuthToken response) /\
  Store.isAuthenticating (store_of result) = false /\
  outcome_of result = Ok Fulfilled /\
  count is_redirect (log_of result) = 0.
Proof.
  intros Hne Hc Ht Hj result. subst result.
  assert (H1 : Response.jsonCode response <> UNABLE_TO_RETRY) by congruence.
  rewrite (reauthenticate_success command s response Hc Ht H1 Hj).
  repeat split. simpl. tauto.
Qed.

(** C5.  Whatever the store and whatever the transport does, one cycle
    either writes the session once (one [updateSessionAuthTokens] call,
    with the one [NetworkStore.setAuthToken] that copies the token) and
    never redirects, and then the response had [jsonCode] 200; or
    redirects once and writes nothing, and then the response had a
    [jsonCode] that is neither 200 nor [UNABLE_TO_RETRY]; or does neither.
    No cycle does both. *)
Theorem reauthenticate_side_effects_at_most_once (command : string) (s : Store.t) :
  let log := log_of (reauthenticate command s) in
  (count is_session_write log = 1 /\ count is_token_write log = 1 /\
   count is_redirect log = 0 /\
   exists response,
     transport "Authenticate" (cycleRequest s) = Resolves response /\
     Response.jsonCode response = Num 200)
  \/ (count is_session_write log = 0 /\ count is_token_write log = 0 /\
      count is_redirect log = 1 /\
      exists response,
        transport "Authenticate" (cycleRequest s) = Resolves response /\
        Response.jsonCode response <> Num 200 /\
        Response.jsonCode response <> UNABLE_TO_RETRY)
  \/ (count is_session_write log = 0 /\ count is_token_write log = 0 /\
      count is_redirect log = 0).
Proof.
  intro log. subst log.
  by_cycle_cases command s; rewrite E.
  - right; right. repeat split.
  - right; right. repeat split.
  - right; right. repeat split.
  - right; left. repeat split. eexists. eauto.
  - left. repeat split. eexists. eauto.
Qed.

(** C6.  When one of [partnerName], [partnerPassword], [partnerUserID] and
    [partnerUserSecret] is missing, [Authenticate] throws a
    missing-parameter error for one of them synchronously: the store is
    untouched and no command has been posted. *)
Theorem Authenticate_missing_parameter_throws (parameters : Parameters.t) (s : Store.t) :
  isMissing (Parameters.partnerName parameters) = true \/
  isMissing (Parameters.partnerPassword parameters) = true \/
  isMissing (Parameters.partnerUserID parameters) = true \/
  isMissing (Parameters.partnerUserSecret parameters) = true ->
  exists name,
    In name ["partnerName"; "partnerPassword"; "partnerUserID"; "partnerUserSecret"] /\
    isMissing (parameter name parameters) = true /\
    Authenticate parameters s = (Throw (MissingParameter name "Authenticate"), s, []) /\
    count is_post (log_of (Authenticate parameters s)) = 0.
Proof.
  intro H.
  destruct (missingParameter parameters) as [name|] eqn:Hm.
  - destruct (missingParameter_required parameters name Hm) as [Hin Hmiss].
    exists name. rewrite (Authenticate_throws parameters name s Hm). repeat split; assumption.
  - apply missingParameter_none in Hm. destruct Hm as (H1 & H2 & H3 & H4).
    destruct H as [H | [H | [H | H]]]; congruence.
Qed.

(** C7.  In a successful cycle the token writes come before the flag is
    cleared: at every point of the cycle after its start at which
    [isAuthenticating] is [false], the token outbound commands read is
    already the refreshed one and the session holds the response's tokens.
    The flag is cleared by the last call of the cycle, and the store the
    cycle leaves is the one these calls build. *)
Theorem reauthenticate_token_written_before_flag_cleared
    (command : string) (s : Store.t) (response : Response.t) :
  UNABLE_TO_RETRY <> Num 200 ->
  credentialsSupplied s ->
  transport "Authenticate" (cycleRequest s) = Resolves response ->
  Response.jsonCode response = Num 200 ->
  let result := reauthenticate command s in
  (forall before after : list Event,
      log_of result = before ++ after ->
      before <> [] ->
      Store.isAuthenticating (replay before s) = false ->
      getAuthToken (replay before s) = nullish (Response.authToken response) Null /\
      Store.session (replay before s) =
        Session.mk (Response.authToken response) (Response.encryptedAuthToken response)) /\
  (exists earlier, log_of result = earlier ++ [SetIsAuthenticating false] /\
      count is_session_write earlier = 1 /\ count is_token_write earlier = 1) /\
  store_of result = replay (log_of result) s /\
  Store.isAuthenticating (store_of result) = false /\
  getAuthToken (store_of result) = nullish (Response.authToken response) Null.
Proof.
  intros Hne Hc Ht Hj result.
  assert (H1 : Response.jsonCode response <> UNABLE_TO_RETRY) by congruence.
  split; [| split; [| split; [apply reauthenticate_store_replay |]]]; subst result;
    rewrite (reauthenticate_success command s response Hc Ht H1 Hj).
  - intros before after Hlog Hnil Hflag. unfold log_of in Hlog. simpl in Hlog.
    destruct before as [|e1 [|e2 [|e3 [|e4 [|e5 [|e6 before]]]]]];
      [congruence | ..];
      simpl in Hlog; try discriminate Hlog;
      injection Hlog; intros; subst;
      simpl in Hflag; try discriminate Hflag.
    split; reflexivity.
  - exists [SetIsAuthenticating true; Post "Authenticate" (cycleRequest s);
            UpdateSessionAuthTokens (Response.authToken response)
              (Response.encryptedAuthToken response);
            SetAuthToken (nullish (Response.authToken response) Null)].
    repeat split.
  - split; reflexivity.
Qed.

Lemma callers_step (n : nat) (s : Store.t) :
  credentialsSupplied s ->
  callers (S n) s =
    (outcome_of (callers n (apply_event (SetIsAuthenticating true) s)),
     store_of (callers n (apply_event (SetIsAuthenticating true) s)),
     [SetIsAuthenticating true; Post "Authenticate" (cycleRequest s)]
       ++ log_of (callers n (apply_event (SetIsAuthenticating true) s))).
Proof.
  intro Hc.
  change (callers (S n) s) with (bind reauthenticate_request (fun _ => callers n) s).
  unfold bind. rewrite (reauthenticate_request_sends s Hc).
  destruct (callers n (apply_event (SetIsAuthenticating true) s)) as [[o s2] log2].
  reflexivity.
Qed.

(** C8 (amended).  [reauthenticate] does not look at [isAuthenticating]
    before it sets it: every call made with stored credentials posts its
    own Authenticate command, whether or not a cycle is in flight, so [n]
    callers that start before any response arrives post [n] commands and
    leave the flag set. *)
Theorem callers_post_one_command_each (n : nat) (s : Store.t) :
  credentialsSupplied s ->
  count is_post (log_of (callers n s)) = n /\
  outcome_of (callers n s) = Ok tt /\
  store_of (callers n s) =
    match n with
    | O => s
    | S _ => apply_event (SetIsAuthenticating true) s
    end.
Proof.
  revert s. induction n as [|n IH]; intros s Hc.
  - repeat split.
  - rewrite (callers_step n s Hc).
    destruct (IH (apply_event (SetIsAuthenticating true) s) Hc) as (Hp & Ho & Hs).
    set (s1 := apply_event (SetIsAuthenticating true) s) in *.
    change (count is_post
              ([SetIsAuthenticating true; Post "Authenticate" (cycleRequest s)]
                 ++ log_of (callers n s1)) = S n /\
            outcome_of (callers n s1) = Ok tt /\
            store_of (callers n s1) = s1).
    rewrite count_app, Hp, Ho, Hs. repeat split.
    destruct n; reflexivity.
Qed.

(** C9.  Every command [Authenticate] posts, for every parameter object,
    carries [shouldRetry = false] and [forceNetworkRequest = true]; so does
    every command a whole cycle of [reauthenticate] posts. *)
Theorem Authenticate_posts_carry_flags
    (parameters : Parameters.t) (command : string) (s : Store.t) :
  Forall carries_flags (log_of (Authenticate parameters s)) /\
  Forall carries_flags (log_of (reauthenticate command s)).
Proof.
  split.
  - destruct (missingParameter parameters) as [name|] eqn:Hm.
    + rewrite (Authenticate_throws parameters name s Hm). constructor.
    + rewrite (Authenticate_sends parameters s Hm). repeat constructor.
  - by_cycle_cases command s; rewrite E; repeat constructor.
Qed.

(** C10.  For a response whose [jsonCode] is 200 and that carries no
    [authToken], the cycle is still a success: the token in the store
    becomes [null], [isAuthenticating] is cleared, the returned promise is
    fulfilled and the Sign-In Redirector is not called. *)
Theorem reauthenticate_success_without_token
    (command : string) (s : Store.t) (response : Response.t) :
  UNABLE_TO_RETRY <> Num 200 ->
  credentialsSupplied s ->
  transport "Authenticate" (cycleRequest s) = Resolves response ->
  Response.jsonCode response = Num 200 ->
  Response.authToken response = Undefined ->
  let result := reauthenticate command s in
  Store.authToken (store_of result) = Null /\
  In (SetAuthToken Null) (log_of result) /\
  Store.isAuthenticating (store_of result) = false /\
  outcome_of result = Ok Fulfilled /\
  count is_redirect (log_of result) = 0.
Proof.
  intros Hne Hc Ht Hj Ha result. subst result.
  assert (H1 : Response.jsonCode response <> UNABLE_TO_RETRY) by congruence.
  rewrite (reauthenticate_success command s response Hc Ht H1 Hj), Ha.
  repeat split. simpl. tauto.
Qed.

(** ** Further properties of [Authenticate] and [reauthenticate] *)

(** What a cycle started in store [s] will meet, whatever its [command]
    label: a missing parameter, a rejection of the transport, or a response
    of one of the three kinds. *)
Lemma cycle_situation (s : Store.t) :
  (exists name,
      missingParameter (reauthenticateParameters (Store.credentials s)) = Some name)
  \/ (credentialsSupplied s /\
      ((exists e, transport "Authenticate" (cycleRequest s) = Rejects e)
       \/ exists response,
           transport "Authenticate" (cycleRequest s) = Resolves response /\
           (Response.jsonCode response = UNABLE_TO_RETRY
            \/ (Response.jsonCode response <> UNABLE_TO_RETRY /\
                Response.jsonCode response <> Num 200)
            \/ (Response.jsonCode response <> UNABLE_TO_RETRY /\
                Response.jsonCode response = Num 200)))).
Proof.
  destruct (missingParameter (reauthenticateParameters (Store.credentials s)))
    as [name|] eqn:Hm.
  { left. now exists name. }
  right. split; [exact Hm |].
  destruct (transport "Authenticate" (cycleRequest s)) as [response|e].
  2:{ left. now exists e. }
  right. exists response. split; [reflexivity |].
  destruct (strict_eq (Response.jsonCode response) UNABLE_TO_RETRY) eqn:H1.
  { left. now apply strict_eq_true_iff. }
  apply strict_eq_false_iff in H1. right.
  destruct (strict_eq (Response.jsonCode response) (Num 200)) eqn:H2.
  - right. split; [exact H1 |]. now apply strict_eq_true_iff.
  - left. split; [exact H1 |]. now apply strict_eq_false_iff.
Qed.

(** Splits a goal along [cycle_situation]. *)
Ltac by_situation s :=
  let name := fresh "name" in
  let e := fresh "e" in
  let r := fresh "r" in
  destruct (cycle_situation s)
    as [(name & Smissing)
       | (Ssupplied & [(e & Srejects)
                      | (r & Sresolves & [Sretry | [(Snot_retry & Snot_ok)
                                                   | (Snot_retry & Sok)]])])].


(** X2.  The command [Authenticate] posts is named Authenticate and hands each
    of the eight parameters on under its own name, unchanged. *)
Theorem Authenticate_body_copies_parameters
    (parameters : Parameters.t) (s : Store.t) (commandName : string) (body : Request.t) :
  In (Post commandName body) (log_of (Authenticate parameters s)) ->
  commandName = "Authenticate" /\
  Request.useExpensifyLogin body = Parameters.useExpensifyLogin parameters /\
  Request.partnerName body = Parameters.partnerName parameters /\
  Request.partnerPassword body = Parameters.partnerPassword parameters /\
  Request.partnerUserID body = Parameters.partnerUserID parameters /\
  Request.partnerUserSecret body = Parameters.partnerUserSecret parameters /\
  Request.twoFactorAuthCode body = Parameters.twoFactorAuthCode parameters /\
  Request.authToken body = Parameters.authToken parameters /\
  Request.email body = Parameters.email parameters.
Proof.
  destruct (missingParameter parameters) as [name|] eqn:Hm.
  - rewrite (Authenticate_throws parameters name s Hm). intros [].
  - rewrite (Authenticate_sends parameters s Hm). intros [H | []].
    injection H as <- <-. repeat split.
Qed.

(** X3.  Every command a cycle posts is an Authenticate command built from the
    partner constants and the stored login and password alone: it is marked
    [useExpensifyLogin: false] and carries no [authToken], no
    [twoFactorAuthCode] and no [email], whatever the store holds. *)
Theorem reauthenticate_posts_stored_credentials (command : string) (s : Store.t) :
  Forall (posts_stored_credentials PARTNER_NAME PARTNER_PASSWORD (Store.credentials s))
    (log_of (reauthenticate command s)).
Proof.
  by_cycle_cases command s; rewrite E; repeat constructor.
Qed.

(** X4.  A cycle never changes the stored credentials, and it changes neither
    the token nor the session unless the transport answered with
    [jsonCode] 200. *)
Theorem reauthenticate_frame (command : string) (s : Store.t) :
  Store.credentials (store_of (reauthenticate command s)) = Store.credentials s /\
  ((Store.authToken (store_of (reauthenticate command s)) = Store.authToken s /\
    Store.session (store_of (reauthenticate command s)) = Store.session s)
   \/ exists response,
       transport "Authenticate" (cycleRequest s) = Resolves response /\
       Response.jsonCode response = Num 200 /\
       Response.jsonCode response <> UNABLE_TO_RETRY).
Proof.
  by_cycle_cases command s; rewrite E; (split; [reflexivity |]);
    try (left; split; reflexivity).
  right. eexists. eauto.
Qed.

(** X5.  The [command] label reaches the diagnostic call only: two cycles that
    differ in their label alone settle alike, leave the same store and make
    the same calls apart from [Log.hmmm]. *)
Theorem reauthenticate_command_is_diagnostic_only (command1 command2 : string) (s : Store.t) :
  outcome_of (reauthenticate command1 s) = outcome_of (reauthenticate command2 s) /\
  store_of (reauthenticate command1 s) = store_of (reauthenticate command2 s) /\
  filter (fun e => negb (is_diagnostic e)) (log_of (reauthenticate command1 s)) =
    filter (fun e => negb (is_diagnostic e)) (log_of (reauthenticate command2 s)).
Proof.
  by_situation s.
  - rewrite (reauthenticate_thrown command1 s _ Smissing),
      (reauthenticate_thrown command2 s _ Smissing). repeat split.
  - rewrite (reauthenticate_transport_rejects command1 s _ Ssupplied Srejects),
      (reauthenticate_transport_rejects command2 s _ Ssupplied Srejects). repeat split.
  - rewrite (reauthenticate_retryable command1 s _ Ssupplied Sresolves Sretry),
      (reauthenticate_retryable command2 s _ Ssupplied Sresolves Sretry). repeat split.
  - rewrite (reauthenticate_terminal command1 s _ Ssupplied Sresolves Snot_retry Snot_ok),
      (reauthenticate_terminal command2 s _ Ssupplied Sresolves Snot_retry Snot_ok).
    repeat split.
  - rewrite (reauthenticate_success command1 s _ Ssupplied Sresolves Snot_retry Sok),
      (reauthenticate_success command2 s _ Ssupplied Sresolves Snot_retry Sok).
    repeat split.
Qed.

(** X6.  The flag is raised before anything else happens: the call that posts
    the Authenticate command comes right after the one that sets
    [isAuthenticating], so the command leaves while the flag is [true]. *)
Theorem reauthenticate_posts_under_flag
    (command : string) (s : Store.t) (before after : list Event)
    (commandName : string) (body : Request.t) :
  log_of (reauthenticate command s) = before ++ Post commandName body :: after ->
  before = [SetIsAuthenticating true] /\
  Store.isAuthenticating (replay before s) = true.
Proof.
  intro Hlog.
  assert (Hb : before = [SetIsAuthenticating true]).
  { by_cycle_cases command s; rewrite E in Hlog; unfold log_of in Hlog; simpl in Hlog;
      destruct before as [|e1 [|e2 [|e3 [|e4 [|e5 [|e6 before]]]]]];
      simpl in Hlog; try discriminate Hlog;
      injection Hlog; intros; subst; try discriminate; try reflexivity;
      try (destruct before; discriminate). }
  subst before. split; reflexivity.
Qed.

(** X7.  After a cycle the flag is cleared exactly when the parameter check
    passed and the transport's promise resolved with a response; a throw of
    the check and a rejection of the promise both leave it set. *)
Theorem reauthenticate_flag_cleared_iff_response (command : string) (s : Store.t) :
  Store.isAuthenticating (store_of (reauthenticate command s)) = false <->
  (credentialsSupplied s /\
   exists response, transport "Authenticate" (cycleRequest s) = Resolves response).
Proof.
  split.
  - intro Hflag. by_situation s.
    + rewrite (reauthenticate_thrown command s _ Smissing) in Hflag. discriminate Hflag.
    + rewrite (reauthenticate_transport_rejects command s _ Ssupplied Srejects) in Hflag.
      discriminate Hflag.
    + split; [exact Ssupplied |]. now exists r.
    + split; [exact Ssupplied |]. now exists r.
    + split; [exact Ssupplied |]. now exists r.
  - intros (Hc & r & Hr). exact (reauthenticate_response_clears_flag command s r Hc Hr).
Qed.

(** X8.  When the transport's promise is rejected, the promise of
    [reauthenticate] is rejected with the same error and the callback does
    not run: the only calls are the raising of the flag and the post, so
    nothing is redirected or written and the flag stays set. *)
Theorem reauthenticate_transport_rejection_skips_callback
    (command : string) (s : Store.t) (e : Error) :
  credentialsSupplied s ->
  transport "Authenticate" (cycleRequest s) = Rejects e ->
  outcome_of (reauthenticate command s) = Ok (Rejected e) /\
  log_of (reauthenticate command s) =
    [SetIsAuthenticating true; Post "Authenticate" (cycleRequest s)] /\
  Store.isAuthenticating (store_of (reauthenticate command s)) = true /\
  Store.authToken (store_of (reauthenticate command s)) = Store.authToken s /\
  Store.session (store_of (reauthenticate command s)) = Store.session s.
Proof.
  intros Hc Ht. rewrite (reauthenticate_transport_rejects command s e Hc Ht).
  repeat split.
Qed.

Lemma store_of_triple {A : Type} (o : Outcome A) (s : Store.t) (log : list Event) :
  store_of (o, s, log) = s.
Proof. reflexivity. Qed.

(** X9.  A cycle is idempotent: run again from the store it left, against the
    same transport, it settles the same way and leaves that store as it
    is. *)
Theorem reauthenticate_idempotent (command1 command2 : string) (s : Store.t) :
  outcome_of (reauthenticate command2 (store_of (reauthenticate command1 s))) =
    outcome_of (reauthenticate command1 s) /\
  store_of (reauthenticate command2 (store_of (reauthenticate command1 s))) =
    store_of (reauthenticate command1 s).
Proof.
  by_situation s.
  - rewrite (reauthenticate_thrown command1 s _ Smissing).
    rewrite !store_of_triple.
    rewrite (reauthenticate_thrown command2 (apply_event (SetIsAuthenticating true) s) _
               Smissing).
    split; reflexivity.
  - rewrite (reauthenticate_transport_rejects command1 s _ Ssupplied Srejects).
    rewrite !store_of_triple.
    rewrite (reauthenticate_transport_rejects command2
               (apply_event (SetIsAuthenticating true) s) _ Ssupplied Srejects).
    split; reflexivity.
  - rewrite (reauthenticate_retryable command1 s _ Ssupplied Sresolves Sretry).
    rewrite !store_of_triple.
    rewrite (reauthenticate_retryable command2
               (Store.mk false (Store.credentials s) (Store.authToken s) (Store.session s))
               _ Ssupplied Sresolves Sretry).
    split; reflexivity.
  - rewrite (reauthenticate_terminal command1 s _ Ssupplied Sresolves Snot_retry Snot_ok).
    rewrite !store_of_triple.
    rewrite (reauthenticate_terminal command2
               (Store.mk false (Store.credentials s) (Store.authToken s) (Store.session s))
               _ Ssupplied Sresolves Snot_retry Snot_ok).
    split; reflexivity.
  - rewrite (reauthenticate_success command1 s _ Ssupplied Sresolves Snot_retry Sok).
    rewrite !store_of_triple.
    rewrite (reauthenticate_success command2
               (Store.mk false (Store.credentials s)
                  (nullish (Response.authToken r) Null)
                  (Session.mk (Response.authToken r) (Response.encryptedAuthToken r)))
               _ Ssupplied Sresolves Snot_retry Sok).
    split; reflexivity.
Qed.

(** X10.  After a successful cycle the token outbound commands read agrees with
    the token of the session: it is the session's token, or [null] where
    the session's is absent; a token that is a string is stored as it
    came. *)
Theorem reauthenticate_success_token_agrees_with_session
    (command : string) (s : Store.t) (response : Response.t) :
  credentialsSupplied s ->
  transport "Authenticate" (cycleRequest s) = Resolves response ->
  Response.jsonCode response <> UNABLE_TO_RETRY ->
  Response.jsonCode response = Num 200 ->
  let after := store_of (reauthenticate command s) in
  getAuthToken after = nullish (Session.authToken (Store.session after)) Null /\
  getAuthToken after <> Undefined /\
  (forall token, Response.authToken response = Str token ->
     getAuthToken after = Str token /\ Session.authToken (Store.session after) = Str token).
Proof.
  intros Hc Ht H1 H2 after. subst after.
  rewrite (reauthenticate_success command s response Hc Ht H1 H2).
  unfold getAuthToken, store_of. simpl.
  split; [reflexivity |]. split.
  - destruct (Response.authToken response); discriminate.
  - intros token ->. split; reflexivity.
Qed.

(** The callers all post, and none of them throws. *)
Lemma callers_post_one_command_each_aux (n : nat) (s : Store.t) :
  credentialsSupplied s ->
  count is_post (log_of (callers n s)) = n /\
  outcome_of (callers n s) = Ok tt /\
  Store.credentials (store_of (callers n s)) = Store.credentials s.
Proof.
  revert s. induction n as [|n IH]; intros s Hc.
  - repeat split.
  - rewrite (callers_step n s Hc).
    destruct (IH (apply_event (SetIsAuthenticating true) s) Hc) as (Hp & Ho & Hs).
    set (s1 := apply_event (SetIsAuthenticating true) s) in *.
    change (count is_post
              ([SetIsAuthenticating true; Post "Authenticate" (cycleRequest s)]
                 ++ log_of (callers n s1)) = S n /\
            outcome_of (callers n s1) = Ok tt /\
            Store.credentials (store_of (callers n s1)) = Store.credentials s).
    rewrite count_app, Hp, Ho, Hs. repeat split.
Qed.

(** X11.  With several cycles in flight, the first response to arrive clears the
    flag for all of them: after [n] callers have each posted their command,
    the callback of one, on any response, leaves [isAuthenticating] false
    although [n] commands were posted and one answered. *)
Theorem overlapping_first_response_clears_flag
    (n : nat) (command : string) (response : Response.t) (s : Store.t) :
  credentialsSupplied s ->
  Store.isAuthenticating (store_of (overlapping n command response s)) = false /\
  count is_post (log_of (overlapping n command response s)) = n.
Proof.
  intro Hc.
  destruct (callers_post_one_command_each_aux n s Hc) as (Hp & Ho & _).
  unfold overlapping, bind.
  destruct (callers n s) as [[o s1] log1].
  unfold outcome_of, log_of in Hp, Ho. simpl in Hp, Ho. subst o.
  assert (Hcb : Store.isAuthenticating (store_of (reauthenticate_callback command response s1))
                = false /\
                count is_post (log_of (reauthenticate_callback command response s1)) = 0).
  { destruct (strict_eq (Response.jsonCode response) UNABLE_TO_RETRY) eqn:H1.
    - apply strict_eq_true_iff in H1.
      rewrite (callback_retryable command response s1 H1). split; reflexivity.
    - apply strict_eq_false_iff in H1.
      destruct (strict_eq (Response.jsonCode response) (Num 200)) eqn:H2.
      + apply strict_eq_true_iff in H2.
        rewrite (callback_success command response s1 H1 H2). split; reflexivity.
      + apply strict_eq_false_iff in H2.
        rewrite (callback_terminal command response s1 H1 H2). split; reflexivity. }
  destruct (reauthenticate_callback command response s1) as [[o2 s2] log2].
  unfold store_of, log_of in *. simpl in *. destruct Hcb as (Hf & Hz).
  split; [exact Hf |]. rewrite count_app, Hp, Hz. lia.
Qed.

End Authentication.

(** ** The claims on the sample environment *)

Set Warnings "-notation-for-abbreviation".

Notation sample_cycle response :=
  (reauthenticate Sample.PARTNER_NAME Sample.PARTNER_PASSWORD Sample.UNABLE_TO_RETRY
     Sample.classify (Sample.answering response) "OpenApp").

Notation sample_supplied :=
  (credentialsSupplied Sample.PARTNER_NAME Sample.PARTNER_PASSWORD).

Notation sample_callers response :=
  (callers Sample.PARTNER_NAME Sample.PARTNER_PASSWORD (Sample.answering response)).

(** C1, on a store without credentials: the parameter check throws for
    [partnerUserID] and the flag is left [true]. *)
Lemma reauthenticate_throw_leaves_flag_set_witness :
  missingParameter
    (reauthenticateParameters Sample.PARTNER_NAME Sample.PARTNER_PASSWORD
       (Store.credentials Sample.signed_out)) = Some "partnerUserID" /\
  outcome_of (sample_cycle Sample.ok Sample.signed_out) =
    Throw (MissingParameter "partnerUserID" "Authenticate") /\
  Store.isAuthenticating (store_of (sample_cycle Sample.ok Sample.signed_out)) = true /\
  count is_post (log_of (sample_cycle Sample.ok Sample.signed_out)) = 0.
Proof.
  split; [reflexivity |].
  apply (reauthenticate_throw_leaves_flag_set Sample.PARTNER_NAME Sample.PARTNER_PASSWORD
           Sample.UNABLE_TO_RETRY Sample.classify (Sample.answering Sample.ok)
           "OpenApp" Sample.signed_out "partnerUserID").
  reflexivity.
Defined.

(** C2 as stated fails: on the response [{jsonCode: 407}], which is neither
    200 nor [UNABLE_TO_RETRY], the promise [reauthenticate] returns is
    fulfilled; the result is not a failure of any kind. *)
Lemma terminal_response_is_not_a_failure :
  Response.jsonCode Sample.expired <> Num 200 /\
  Response.jsonCode Sample.expired <> Sample.UNABLE_TO_RETRY /\
  outcome_of (sample_cycle Sample.expired Sample.store) = Ok Fulfilled /\
  ~ is_failure (outcome_of (sample_cycle Sample.expired Sample.store)).
Proof.
  split; [discriminate |]. split; [discriminate |]. split; [reflexivity |].
  intro H. exact H.
Qed.

Lemma reauthenticate_terminal_redirects_and_fulfils_witness :
  sample_supplied Sample.store /\
  Response.jsonCode Sample.expired <> Num 200 /\
  Response.jsonCode Sample.expired <> Sample.UNABLE_TO_RETRY /\
  Store.isAuthenticating (store_of (sample_cycle Sample.expired Sample.store)) = false /\
  count is_redirect (log_of (sample_cycle Sample.expired Sample.store)) = 1 /\
  In (RedirectToSignIn "expired session") (log_of (sample_cycle Sample.expired Sample.store)) /\
  count is_session_write (log_of (sample_cycle Sample.expired Sample.store)) = 0 /\
  count is_token_write (log_of (sample_cycle Sample.expired Sample.store)) = 0 /\
  outcome_of (sample_cycle Sample.expired Sample.store) = Ok Fulfilled.
Proof.
  split; [reflexivity |]. split; [discriminate |]. split; [discriminate |].
  apply (reauthenticate_terminal_redirects_and_fulfils Sample.PARTNER_NAME
           Sample.PARTNER_PASSWORD Sample.UNABLE_TO_RETRY Sample.classify
           (Sample.answering Sample.expired) "OpenApp" Sample.store Sample.expired);
    [reflexivity | reflexivity | discriminate | discriminate].
Defined.

Lemma reauthenticate_unable_to_retry_witness :
  sample_supplied Sample.store /\
  Response.jsonCode Sample.offline = Sample.UNABLE_TO_RETRY /\
  Store.isAuthenticating (store_of (sample_cycle Sample.offline Sample.store)) = false /\
  outcome_of (sample_cycle Sample.offline Sample.store) =
    Ok (Rejected (ErrorMessage "Unable to retry Authenticate request")) /\
  is_failure (outcome_of (sample_cycle Sample.offline Sample.store)) /\
  count is_redirect (log_of (sample_cycle Sample.offline Sample.store)) = 0 /\
  count is_session_write (log_of (sample_cycle Sample.offline Sample.store)) = 0 /\
  count is_token_write (log_of (sample_cycle Sample.offline Sample.store)) = 0 /\
  Store.session (store_of (sample_cycle Sample.offline Sample.store)) =
    Store.session Sample.store /\
  Store.authToken (store_of (sample_cycle Sample.offline Sample.store)) =
    Store.authToken Sample.store.
Proof.
  split; [reflexivity |]. split; [reflexivity |].
  apply (reauthenticate_unable_to_retry Sample.PARTNER_NAME Sample.PARTNER_PASSWORD
           Sample.UNABLE_TO_RETRY Sample.classify (Sample.answering Sample.offline)
           "OpenApp" Sample.store Sample.offline);
    reflexivity.
Defined.

(** Scenario A of the specification. *)
Lemma reauthenticate_success_writes_session_witness :
  Sample.UNABLE_TO_RETRY <> Num 200 /\
  sample_supplied Sample.store /\
  Response.jsonCode Sample.ok = Num 200 /\
  In (UpdateSessionAuthTokens (Str "tok1") (Str "enc1"))
    (log_of (sample_cycle Sample.ok Sample.store)) /\
  Store.session (store_of (sample_cycle Sample.ok Sample.store)) =
    Session.mk (Str "tok1") (Str "enc1") /\
  Store.isAuthenticating (store_of (sample_cycle Sample.ok Sample.store)) = false /\
  outcome_of (sample_cycle Sample.ok Sample.store) = Ok Fulfilled /\
  count is_redirect (log_of (sample_cycle Sample.ok Sample.store)) = 0.
Proof.
  split; [discriminate |]. split; [reflexivity |]. split; [reflexivity |].
  apply (reauthenticate_success_writes_session Sample.PARTNER_NAME Sample.PARTNER_PASSWORD
           Sample.UNABLE_TO_RETRY Sample.classify (Sample.answering Sample.ok)
           "OpenApp" Sample.store Sample.ok);
    [discriminate | reflexivity | reflexivity | reflexivity].
Defined.

(** Scenario E of the specification. *)
Lemma Authenticate_missing_parameter_throws_witness :
  isMissing (Parameters.partnerUserSecret Sample.incomplete) = true /\
  exists name,
    In name ["partnerName"; "partnerPassword"; "partnerUserID"; "partnerUserSecret"] /\
    isMissing (parameter name Sample.incomplete) = true /\
    Authenticate (Sample.answering Sample.ok) Sample.incomplete Sample.store =
      (Throw (MissingParameter name "Authenticate"), Sample.store, []) /\
    count is_post
      (log_of (Authenticate (Sample.answering Sample.ok) Sample.incomplete Sample.store)) = 0.
Proof.
  split; [reflexivity |].
  apply (Authenticate_missing_parameter_throws (Sample.answering Sample.ok)
           Sample.incomplete Sample.store).
  right; right; right. reflexivity.
Defined.

Lemma reauthenticate_token_written_before_flag_cleared_witness :
  Sample.UNABLE_TO_RETRY <> Num 200 /\
  sample_supplied Sample.store /\
  Response.jsonCode Sample.ok = Num 200 /\
  getAuthToken Sample.store = Str "stale" /\
  getAuthToken (store_of (sample_cycle Sample.ok Sample.store)) = Str "tok1" /\
  Store.isAuthenticating (store_of (sample_cycle Sample.ok Sample.store)) = false.
Proof.
  split; [discriminate |]. split; [reflexivity |]. split; [reflexivity |].
  split; [reflexivity |].
  destruct (reauthenticate_token_written_before_flag_cleared Sample.PARTNER_NAME
              Sample.PARTNER_PASSWORD Sample.UNABLE_TO_RETRY Sample.classify
              (Sample.answering Sample.ok) "OpenApp" Sample.store Sample.ok
              ltac:(discriminate) eq_refl eq_refl eq_refl)
    as (_ & _ & _ & Hflag & Htoken).
  split; [exact Htoken | exact Hflag].
Defined.

(** C8 as stated fails: two callers that start while no cycle is in flight
    post two Authenticate commands, the second of them while the flag set
    by the first is [true]. *)
Lemma two_callers_post_two_commands :
  Store.isAuthenticating Sample.store = false /\
  Store.isAuthenticating (store_of (sample_callers Sample.ok 1 Sample.store)) = true /\
  count is_post (log_of (sample_callers Sample.ok 2 Sample.store)) = 2 /\
  count is_post (log_of (sample_callers Sample.ok 2 Sample.store)) <> 1.
Proof.
  split; [reflexivity |]. split; [reflexivity |]. split; [reflexivity |].
  discriminate.
Qed.

Lemma callers_post_one_command_each_witness :
  sample_supplied Sample.store /\
  count is_post (log_of (sample_callers Sample.ok 3 Sample.store)) = 3 /\
  outcome_of (sample_callers Sample.ok 3 Sample.store) = Ok tt /\
  store_of (sample_callers Sample.ok 3 Sample.store) =
    apply_event (SetIsAuthenticating true) Sample.store.
Proof.
  split; [reflexivity |].
  apply (callers_post_one_command_each Sample.PARTNER_NAME Sample.PARTNER_PASSWORD
           (Sample.answering Sample.ok) 3 Sample.store).
  reflexivity.
Defined.

Lemma reauthenticate_success_without_token_witness :
  Sample.UNABLE_TO_RETRY <> Num 200 /\
  sample_supplied Sample.store /\
  Response.jsonCode Sample.ok_without_token = Num 200 /\
  Response.authToken Sample.ok_without_token = Undefined /\
  Store.authToken (store_of (sample_cycle Sample.ok_without_token Sample.store)) = Null /\
  In (SetAuthToken Null) (log_of (sample_cycle Sample.ok_without_token Sample.store)) /\
  Store.isAuthenticating (store_of (sample_cycle Sample.ok_without_token Sample.store)) = false /\
  outcome_of (sample_cycle Sample.ok_without_token Sample.store) = Ok Fulfilled /\
  count is_redirect (log_of (sample_cycle Sample.ok_without_token Sample.store)) = 0.
Proof.
  split; [discriminate |]. split; [reflexivity |]. split; [reflexivity |].
  split; [reflexivity |].
  apply (reauthenticate_success_without_token Sample.PARTNER_NAME Sample.PARTNER_PASSWORD
           Sample.UNABLE_TO_RETRY Sample.classify (Sample.answering Sample.ok_without_token)
           "OpenApp" Sample.store Sample.ok_without_token);
    [discriminate | reflexivity | reflexivity | reflexivity | reflexivity].
Defined.

(** ** Properties of the participants selector *)

Section ParticipantsSplitSelectorFacts.

Variable OptionData : Type.
Variable login : OptionData -> Value.
Variable translate : string -> string.
Variable isCurrentUser : OptionData -> bool.
Variable MAXIMUM_PARTICIPANTS : nat.

Local Notation other := (hasOtherLogin login).

Lemma isOptionInList_false_filter (participants : list OptionData) (option : OptionData) :
  isOptionInList login participants option = false ->
  filter (other option) participants = participants.
Proof.
  unfold isOptionInList, hasOtherLogin. induction participants as [|p rest IH]; simpl; intro H.
  - reflexivity.
  - apply Bool.orb_false_iff in H. destruct H as [Hp Hrest].
    rewrite Hp. simpl. now rewrite IH.
Qed.

Lemma isOptionInList_filter (participants : list OptionData) (option : OptionData) :
  isOptionInList login (filter (other option) participants) option = false.
Proof.
  unfold isOptionInList, hasOtherLogin. induction participants as [|p rest IH]; simpl.
  - reflexivity.
  - destruct (strict_eq (login p) (login option)) eqn:E; simpl.
    + exact IH.
    + now rewrite E, IH.
Qed.

Lemma isOptionInList_app (l1 l2 : list OptionData) (option : OptionData) :
  isOptionInList login (l1 ++ l2) option =
    isOptionInList login l1 option || isOptionInList login l2 option.
Proof. unfold isOptionInList. apply existsb_app. Qed.

(** X12.  Toggling an option flips whether its login is among the participants:
    a login that was selected is selected no more, however often it
    occurred, and one that was not is. *)
Theorem toggleOption_flips_membership
    (participants : list OptionData) (searchTerm : string) (option : OptionData) :
  isOptionInList login (newSelectedOptions (toggleOption login participants searchTerm option))
    option = negb (isOptionInList login participants option).
Proof.
  unfold toggleOption.
  destruct (isOptionInList login participants option) eqn:E; simpl.
  - apply isOptionInList_filter.
  - rewrite isOptionInList_app, E. unfold isOptionInList. simpl.
    now rewrite strict_eq_refl.
Qed.

(** X13.  Selecting an option whose login is not among the participants and
    toggling it again gives back the participants as they were, in their
    order. *)
Theorem toggleOption_round_trip
    (participants : list OptionData) (searchTerm1 searchTerm2 : string)
    (option : OptionData) :
  isOptionInList login participants option = false ->
  newSelectedOptions
    (toggleOption login
       (newSelectedOptions (toggleOption login participants searchTerm1 option))
       searchTerm2 option) = participants.
Proof.
  intro E. unfold toggleOption at 2. rewrite E. simpl.
  unfold toggleOption.
  assert (Hin : isOptionInList login (participants ++ [option]) option = true).
  { rewrite isOptionInList_app, E. unfold isOptionInList. simpl. now rewrite strict_eq_refl. }
  rewrite Hin. simpl. rewrite filter_app.
  fold (other option). rewrite (isOptionInList_false_filter participants option E).
  simpl. unfold hasOtherLogin. rewrite strict_eq_refl. simpl. apply app_nil_r.
Qed.

(** X14.  Toggling an option leaves the participants with other logins alone:
    they stay, in their order. *)
Theorem toggleOption_keeps_others
    (participants : list OptionData) (searchTerm : string) (option : OptionData) :
  filter (fun selectedOption => negb (strict_eq (login selectedOption) (login option)))
    (newSelectedOptions (toggleOption login participants searchTerm option)) =
  filter (fun selectedOption => negb (strict_eq (login selectedOption) (login option)))
    participants.
Proof.
  unfold toggleOption.
  destruct (isOptionInList login participants option) eqn:E; simpl.
  - fold (other option). induction participants as [|p rest IH]; simpl.
    + reflexivity.
    + unfold isOptionInList in E. simpl in E.
      destruct (other option p) eqn:Ep; simpl.
      * rewrite Ep. f_equal.
        clear IH E. induction rest as [|q rest IH]; simpl; [reflexivity |].
        destruct (other option q) eqn:Eq; simpl; [rewrite Eq; now f_equal | exact IH].
      * clear IH E. induction rest as [|q rest IH]; simpl; [reflexivity |].
        destruct (other option q) eqn:Eq; simpl; [rewrite Eq; now f_equal | exact IH].
  - rewrite filter_app. simpl. rewrite strict_eq_refl. simpl. apply app_nil_r.
Qed.

(** X15.  In the list of sections, the [indexOffset] of a section is the number
    of rows of the sections before it. *)
Theorem sections_indexOffset_counts_rows_before
    (participants : list OptionData) (newChatOptions : NewChatOptions OptionData)
    (before after : list (OptionsSection OptionData)) (sec : OptionsSection OptionData) :
  sections translate isCurrentUser MAXIMUM_PARTICIPANTS participants newChatOptions =
    before ++ sec :: after ->
  indexOffset sec = rows before.
Proof.
  unfold sections. intro H.
  destruct (Nat.eqb (length participants) MAXIMUM_PARTICIPANTS);
    [| destruct (userToInvite newChatOptions) as [invited|];
       [destruct (isCurrentUser invited) |]];
    simpl in H;
    destruct before as [|s1 [|s2 [|s3 [|s4 before]]]];
    simpl in H; try discriminate H;
    injection H; intros; subst; simpl; try lia;
    try (destruct before; discriminate).
Qed.


End ParticipantsSplitSelectorFacts.

(** ** Properties of the policy helpers *)

Section PolicyUtilsFacts.

Variable DELETE : string.
Variable ADMIN : string.
Variable ERROR : string.
Variable POLICY_MEMBERS : string.
Variable EXPENSIFY_EMAILS : list string.
Variable toString : JS.t -> string.
Variable castPath : string -> JS.t -> list string.

(** *** Reading data *)

Lemma get_field (v : JS.t) (key : string) :
  JS.nullish v = false -> JS.get v key = Some (JS.field v key).
Proof. destruct v; simpl; intro H; try discriminate H; reflexivity. Qed.

Lemma truthy_not_nullish (v : JS.t) : JS.truthy v = true -> JS.nullish v = false.
Proof. destruct v; simpl; intro H; try discriminate H; reflexivity. Qed.

Lemma isEmpty_false_not_nullish (v : JS.t) : JS.isEmpty v = false -> JS.nullish v = false.
Proof. destruct v; simpl; intro H; try discriminate H; reflexivity. Qed.

Lemma map_fst_combine_seq {A B : Type} (f : nat -> B) (l : list A) (start : nat) :
  map fst (combine l (map f (seq start (length l)))) = l.
Proof.
  revert start. induction l as [|x l IH]; intro start; simpl.
  - reflexivity.
  - now rewrite IH.
Qed.

Lemma values_Arr (items : list JS.t) : JS.values (JS.Arr items) = items.
Proof. unfold JS.values, JS.entries. simpl. apply map_fst_combine_seq. Qed.

Lemma values_nullish (v : JS.t) : JS.nullish v = true -> JS.values v = [].
Proof. destruct v; simpl; intro H; try discriminate H; reflexivity. Qed.

Lemma filter_total (predicate : JS.t -> option bool) (f : JS.t -> bool) (l : list JS.t) :
  (forall x, In x l -> predicate x = Some (f x)) ->
  JS.filter predicate l = Some (filter f l).
Proof.
  induction l as [|x l IH]; simpl; intro H.
  - reflexivity.
  - rewrite (H x (or_introl eq_refl)), IH by (intros y Hy; apply H; now right).
    destruct (f x); reflexivity.
Qed.

Lemma some_total (predicate : JS.t -> option bool) (f : JS.t -> bool) (l : list JS.t) :
  (forall x, In x l -> predicate x = Some (f x)) ->
  JS.some predicate l = Some (existsb f l).
Proof.
  induction l as [|x l IH]; simpl; intro H.
  - reflexivity.
  - rewrite (H x (or_introl eq_refl)).
    destruct (f x); simpl; [reflexivity |].
    apply IH. intros y Hy. apply H. now right.
Qed.

Lemma filter_idempotent {A : Type} (f : A -> bool) (l : list A) :
  filter f (filter f l) = filter f l.
Proof.
  induction l as [|x l IH]; simpl; [reflexivity |].
  destruct (f x) eqn:E; simpl; [rewrite E; now f_equal | exact IH].
Qed.

(** *** [getActivePolicies] *)

Lemma isActivePolicy_total (policy : JS.t) :
  isActivePolicy DELETE policy = Some (activePolicy DELETE policy).
Proof.
  unfold isActivePolicy, activePolicy.
  destruct (JS.truthy policy) eqn:T; [| reflexivity].
  pose proof (truthy_not_nullish policy T) as N.
  rewrite !(get_field policy _ N).
  destruct (JS.truthy (JS.field policy "isPolicyExpenseChatEnabled"));
    destruct (JS.truthy (JS.field policy "areChatRoomsEnabled")); reflexivity.
Qed.

(** X17.  [getActivePolicies] never throws, whatever the collection holds: it
    returns, in their order, exactly the values that are truthy, have expense
    chat or chat rooms enabled and are not pending deletion; [null] entries
    are dropped. *)
Theorem getActivePolicies_filters (policies : JS.t) :
  getActivePolicies DELETE policies =
    Some (filter (activePolicy DELETE) (JS.values policies)).
Proof.
  unfold getActivePolicies. apply filter_total. intros x _. apply isActivePolicy_total.
Qed.

(** X18.  The active policies of the list of active policies are that list. *)
Theorem getActivePolicies_idempotent (policies : JS.t) (active : list JS.t) :
  getActivePolicies DELETE policies = Some active ->
  getActivePolicies DELETE (JS.Arr active) = Some active.
Proof.
  rewrite !getActivePolicies_filters, values_Arr. intro H. injection H as <-.
  now rewrite filter_idempotent.
Qed.

(** X19.  None of the policies [getActivePolicies] returns is pending deletion,
    by the test of [isPendingDeletePolicy], which does not throw on any of
    them. *)
Theorem getActivePolicies_none_pending_delete (policies : JS.t) (active : list JS.t) :
  getActivePolicies DELETE policies = Some active ->
  Forall (fun policy => isPendingDeletePolicy DELETE policy = Some false) active.
Proof.
  rewrite getActivePolicies_filters. intro H. injection H as <-.
  apply Forall_forall. intros policy Hin. apply filter_In in Hin. destruct Hin as [_ Hact].
  unfold activePolicy in Hact.
  apply Bool.andb_true_iff in Hact. destruct Hact as [Hact Hpending].
  apply Bool.andb_true_iff in Hact. destruct Hact as [T _].
  unfold isPendingDeletePolicy.
  rewrite (get_field policy _ (truthy_not_nullish policy T)).
  apply Bool.negb_true_iff in Hpending. now rewrite Hpending.
Qed.

(** *** [hasPolicyMemberError] *)

(** X20.  On a collection none of whose members is [null] or [undefined],
    [hasPolicyMemberError] does not throw and tells whether some member has
    [errors] that are not empty; on no collection at all, and on an empty
    one, that is [false]. *)
Theorem hasPolicyMemberError_some_member_has_errors (policyMembers : JS.t) :
  Forall (fun member => JS.nullish member = false) (JS.values policyMembers) ->
  hasPolicyMemberError policyMembers =
    Some (existsb (fun member => negb (JS.isEmpty (JS.field member "errors")))
            (JS.values policyMembers)).
Proof.
  intro H. unfold hasPolicyMemberError. apply some_total.
  intros member Hin. rewrite Forall_forall in H.
  now rewrite (get_field member _ (H member Hin)).
Qed.

(** X21.  [hasPolicyMemberError] throws when it comes to a member that is [null]
    or [undefined] before it has found a member with errors. *)
Theorem hasPolicyMemberError_throws_on_null_member
    (policyMembers : JS.t) (before after : list JS.t) (member : JS.t) :
  JS.values policyMembers = before ++ member :: after ->
  JS.nullish member = true ->
  Forall (fun earlier => JS.nullish earlier = false /\
                         JS.isEmpty (JS.field earlier "errors") = true) before ->
  hasPolicyMemberError policyMembers = None.
Proof.
  intros Hv Hnull Hbefore. unfold hasPolicyMemberError. rewrite Hv. clear Hv.
  induction before as [|b before IH]; simpl.
  - destruct member; try discriminate Hnull; reflexivity.
  - inversion Hbefore as [|? ? [Hn He] Hrest]; subst.
    rewrite (get_field b _ Hn), He. simpl. now apply IH.
Qed.

(** *** [hasCustomUnitsError] *)

Lemma lookup_existsb (key : string) (fields : list (string * JS.t)) :
  (match JS.lookup key fields with Some _ => true | None => false end) =
    existsb (fun kv => String.eqb (fst kv) key) fields.
Proof.
  unfold JS.lookup. induction fields as [|kv fields IH]; simpl.
  - reflexivity.
  - destruct (String.eqb (fst kv) key); simpl; [reflexivity | exact IH].
Qed.

(** X22.  [hasCustomUnitsError] asks whether the [customUnits] object itself has
    a property named [errors], whatever its value: errors kept inside one of
    the units do not count. *)
Theorem hasCustomUnitsError_top_level_key (policy : JS.t) (units : list (string * JS.t)) :
  JS.lodashGet policy ["customUnits"] (JS.Obj []) = JS.Obj units ->
  hasCustomUnitsError policy = existsb (fun kv => String.eqb (fst kv) "errors") units.
Proof.
  intro H. unfold hasCustomUnitsError. rewrite H. unfold JS.pick. simpl.
  rewrite <- lookup_existsb. destruct (JS.lookup "errors" units); reflexivity.
Qed.


(** *** [shouldShowPolicy] and [isPolicyAdmin] *)

Lemma lodashGet_undefined_default (v : JS.t) (key : string) :
  JS.lodashGet v [key] JS.Undefined = JS.field v key.
Proof.
  unfold JS.lodashGet, JS.field. simpl.
  destruct (JS.get v key) as [value|]; [destruct value |]; reflexivity.
Qed.

(** X23.  [shouldShowPolicy] never throws.  What it returns is truthy exactly
    when the policy is there, has expense chat enabled, has the admin role,
    and the user is offline or the policy is not pending deletion or it has
    errors; so a policy that is shown is one [isPolicyAdmin] accepts. *)
Theorem shouldShowPolicy_truthiness (policy isOffline : JS.t) :
  exists shown,
    shouldShowPolicy DELETE ADMIN policy isOffline = Some shown /\
    JS.truthy shown =
      JS.truthy policy
      && JS.truthy (JS.field policy "isPolicyExpenseChatEnabled")
      && JS.eqStr (JS.field policy "role") ADMIN
      && (JS.truthy isOffline
          || negb (JS.eqStr (JS.field policy "pendingAction") DELETE)
          || negb (JS.isEmpty (JS.field policy "errors"))) /\
    (JS.truthy shown = true -> isPolicyAdmin ADMIN policy = true).
Proof.
  unfold shouldShowPolicy, isPolicyAdmin. rewrite lodashGet_undefined_default.
  destruct (JS.truthy policy) eqn:T; simpl.
  2:{ exists policy. rewrite T. repeat split. intro H. discriminate H. }
  pose proof (truthy_not_nullish policy T) as N.
  rewrite !(get_field policy _ N).
  destruct (JS.truthy (JS.field policy "isPolicyExpenseChatEnabled")) eqn:E; simpl.
  2:{ eexists. split; [reflexivity |]. rewrite E. split; [reflexivity |].
      intro H. discriminate H. }
  destruct (JS.eqStr (JS.field policy "role") ADMIN) eqn:R; simpl.
  2:{ eexists. split; [reflexivity |]. split; [reflexivity |]. intro H. discriminate H. }
  destruct (JS.truthy isOffline) eqn:O; simpl.
  { eexists. split; [reflexivity |]. rewrite O. split; reflexivity. }
  destruct (JS.eqStr (JS.field policy "pendingAction") DELETE) eqn:P; simpl.
  - eexists. split; [reflexivity |]. simpl. split; [reflexivity |]. intros _. reflexivity.
  - eexists. split; [reflexivity |]. split; reflexivity.
Qed.

(** *** [getPolicyBrickRoadIndicatorStatus] *)

(** X24.  [getPolicyBrickRoadIndicatorStatus] throws on a policy that is [null]
    or [undefined].  When it returns, the status is [ERROR] or the empty
    string, and the empty string means that the policy has no custom-unit
    error and no error fields. *)
Theorem getPolicyBrickRoadIndicatorStatus_outcomes (policy policyMembersCollection : JS.t) :
  (JS.nullish policy = true ->
   getPolicyBrickRoadIndicatorStatus ERROR POLICY_MEMBERS toString castPath
     policy policyMembersCollection = None) /\
  (forall status,
     getPolicyBrickRoadIndicatorStatus ERROR POLICY_MEMBERS toString castPath
       policy policyMembersCollection = Some status ->
     status = ERROR \/
     (status = "" /\ hasCustomUnitsError policy = false /\
      hasPolicyErrorFields policy = false)).
Proof.
  unfold getPolicyBrickRoadIndicatorStatus. split.
  - destruct policy; simpl; intro H; try discriminate H; reflexivity.
  - intros status H.
    destruct (JS.get policy "id") as [id|]; [| discriminate H].
    destruct (hasPolicyMemberError _) as [memberError|]; [| discriminate H].
    destruct memberError; simpl in H.
    + injection H as <-. now left.
    + destruct (hasCustomUnitsError policy); simpl in H.
      * injection H as <-. now left.
      * destruct (hasPolicyErrorFields policy); injection H as <-; [now left |].
        right. repeat split.
Qed.

(** *** The tag helpers *)

Lemma lodashGet_two_keys (v : JS.t) (key1 key2 : string) (defaultValue : JS.t) :
  JS.lodashGet v [key1; key2] defaultValue =
    JS.lodashGet (JS.lodashGet v [key1] (JS.Obj [])) [key2] defaultValue.
Proof.
  unfold JS.lodashGet. simpl.
  destruct (JS.get v key1) as [value|]; [destruct value |]; reflexivity.
Qed.

(** X25.  On tags that are empty, among them [undefined], [null] and the empty
    object, the three helpers return their defaults. *)
Theorem tag_helpers_default_on_empty (policyTags : JS.t) (tagKey : option string) :
  JS.isEmpty policyTags = true ->
  getTag castPath policyTags tagKey = JS.Obj [] /\
  getTagListName policyTags = JS.Str "" /\
  getTagList policyTags tagKey = JS.Obj [].
Proof.
  intro H. unfold getTag, getTagListName, getTagList. rewrite H. repeat split.
Qed.

(** X26.  Without a key, and with the empty string for a key, the helpers turn
    to the first tag list of the object: [getTagListName] gives its [name]
    and [getTagList] its [tags], each with its default when the list has
    none. *)
Theorem tag_helpers_default_to_first_list
    (key : string) (tagList : JS.t) (rest : list (string * JS.t)) :
  getTagListName (JS.Obj ((key, tagList) :: rest)) =
    JS.lodashGet tagList ["name"] (JS.Str "") /\
  getTagList (JS.Obj ((key, tagList) :: rest)) None =
    JS.lodashGet tagList ["tags"] (JS.Obj []) /\
  getTagList (JS.Obj ((key, tagList) :: rest)) (Some "") =
    JS.lodashGet tagList ["tags"] (JS.Obj []).
Proof.
  unfold getTagListName, getTagList, policyTagKey, JS.lodashGet. simpl.
  unfold JS.own, JS.lookup. simpl. rewrite String.eqb_refl. simpl.
  repeat split.
Qed.

(** X27.  Where lodash reads the key of the tag list as one key, [getTagList] and
    [getTagListName] give the [tags] and the [name] of the list [getTag]
    returns. *)
Theorem tag_helpers_agree_with_getTag (policyTags : JS.t) (tagKey : option string) :
  (forall key, policyTagKey policyTags tagKey = Some key ->
     castPath key policyTags = [key]) ->
  (forall key, hd_error (JS.keys policyTags) = Some key ->
     castPath key policyTags = [key]) ->
  getTagList policyTags tagKey =
    JS.lodashGet (getTag castPath policyTags tagKey) ["tags"] (JS.Obj []) /\
  getTagListName policyTags =
    JS.lodashGet (getTag castPath policyTags None) ["name"] (JS.Str "").
Proof.
  intros Hkey Hfirst. unfold getTagList, getTagListName, getTag.
  destruct (JS.isEmpty policyTags); [split; reflexivity |].
  split.
  - rewrite lodashGet_two_keys.
    destruct (policyTagKey policyTags tagKey) as [key|] eqn:K.
    + now rewrite (Hkey key eq_refl).
    + reflexivity.
  - rewrite lodashGet_two_keys. unfold policyTagKey.
    destruct (hd_error (JS.keys policyTags)) as [key|] eqn:K.
    + now rewrite (Hfirst key eq_refl).
    + reflexivity.
Qed.

(** *** [getIneligibleInvitees] *)

Lemma excludeMembers_extends
    (personalDetails : JS.t) (members : list (JS.t * JS.t)) (excluded result : list JS.t) :
  excludeMembers DELETE toString castPath personalDetails members excluded = Some result ->
  exists added,
    result = excluded ++ added /\
    length added <= length members /\
    Forall (fun email => JS.truthy email = true) added.
Proof.
  revert excluded. induction members as [|entry members IH]; simpl; intros excluded H.
  - injection H as <-. exists []. rewrite app_nil_r. repeat split; auto.
  - destruct (ineligibleEmail DELETE toString castPath personalDetails entry)
      as [[memberEmail|]|] eqn:E; [| | discriminate H].
    + destruct (IH _ H) as (added & -> & Hlen & Htruthy).
      exists (memberEmail :: added). rewrite <- app_assoc. simpl.
      repeat split; [lia |]. constructor; [| exact Htruthy].
      unfold ineligibleEmail in E. destruct entry as [policyMember accountID].
      destruct (JS.get policyMember "pendingAction") as [pendingAction|]; [| discriminate E].
      destruct (JS.eqStr pendingAction DELETE).
      * discriminate E.
      * destruct (JS.get policyMember "errors") as [errors|]; [| discriminate E].
        destruct (negb (JS.isEmpty errors)); [discriminate E |].
        destruct (JS.truthy (JS.lodashGet personalDetails _ JS.Undefined)) eqn:T;
          simpl in E; [| discriminate E].
        injection E as <-. exact T.
    + destruct (IH _ H) as (added & -> & Hlen & Htruthy).
      exists added. repeat split; [lia | exact Htruthy].
Qed.

(** X28.  The list [getIneligibleInvitees] returns starts with the Expensify
    emails, in their order, and goes on with at most one email per member,
    each of them truthy. *)
Theorem getIneligibleInvitees_extends_expensify_emails
    (policyMembers personalDetails : JS.t) (excluded : list JS.t) :
  getIneligibleInvitees DELETE EXPENSIFY_EMAILS toString castPath
    policyMembers personalDetails = Some excluded ->
  exists added,
    excluded = map JS.Str EXPENSIFY_EMAILS ++ added /\
    length added <= length (JS.values policyMembers) /\
    Forall (fun email => JS.truthy email = true) added.
Proof.
  unfold getIneligibleInvitees, JS.values. rewrite length_map.
  apply excludeMembers_extends.
Qed.

(** X29.  Members that are pending deletion or have errors are not excluded from
    the invite options: when every member is of that kind, and when there
    are no members, the list is the Expensify emails alone. *)
Theorem getIneligibleInvitees_skips_invalid_members
    (policyMembers personalDetails : JS.t) :
  Forall (fun member =>
            JS.nullish member = false /\
            (JS.eqStr (JS.field member "pendingAction") DELETE = true \/
             JS.isEmpty (JS.field member "errors") = false))
    (JS.values policyMembers) ->
  getIneligibleInvitees DELETE EXPENSIFY_EMAILS toString castPath
    policyMembers personalDetails = Some (map JS.Str EXPENSIFY_EMAILS).
Proof.
  unfold getIneligibleInvitees, JS.values.
  generalize (map JS.Str EXPENSIFY_EMAILS) as excluded.
  induction (JS.entries policyMembers) as [|[policyMember accountID] members IH];
    simpl; intros excluded H.
  - reflexivity.
  - inversion H as [|? ? [Hn Hskip] Hrest]; subst.
    unfold ineligibleEmail. rewrite !(get_field policyMember _ Hn).
    destruct (JS.eqStr (JS.field policyMember "pendingAction") DELETE) eqn:P.
    + apply IH. exact Hrest.
    + destruct Hskip as [Hp | He]; [discriminate Hp |].
      rewrite He. simpl. apply IH. exact Hrest.
Qed.

End PolicyUtilsFacts.

(** ** The further properties on the samples *)

Lemma Authenticate_body_copies_parameters_witness :
  In (Post "Authenticate" (authenticateBody Sample.complete))
    (log_of (Authenticate (Sample.answering Sample.ok) Sample.complete Sample.store)) /\
  Request.twoFactorAuthCode (authenticateBody Sample.complete) = Str "123456" /\
  Request.email (authenticateBody Sample.complete) = Str "user@example.com" /\
  Request.authToken (authenticateBody Sample.complete) = Undefined.
Proof.
  split; [left; reflexivity |].
  destruct (Authenticate_body_copies_parameters (Sample.answering Sample.ok)
              Sample.complete Sample.store "Authenticate"
              (authenticateBody Sample.complete) (or_introl eq_refl))
    as (_ & _ & _ & _ & _ & _ & H2fa & Htoken & Hemail).
  split; [exact H2fa |]. split; [exact Hemail | exact Htoken].
Defined.

Lemma reauthenticate_posts_under_flag_witness :
  log_of (sample_cycle Sample.ok Sample.store) =
    [SetIsAuthenticating true]
      ++ Post "Authenticate"
           (cycleRequest Sample.PARTNER_NAME Sample.PARTNER_PASSWORD Sample.store)
      :: [UpdateSessionAuthTokens (Str "tok1") (Str "enc1"); SetAuthToken (Str "tok1");
          SetIsAuthenticating false] /\
  Store.isAuthenticating (replay [SetIsAuthenticating true] Sample.store) = true.
Proof.
  split; [reflexivity |].
  exact (proj2 (reauthenticate_posts_under_flag Sample.PARTNER_NAME Sample.PARTNER_PASSWORD
                  Sample.UNABLE_TO_RETRY Sample.classify (Sample.answering Sample.ok)
                  "OpenApp" Sample.store [SetIsAuthenticating true]
                  [UpdateSessionAuthTokens (Str "tok1") (Str "enc1");
                   SetAuthToken (Str "tok1"); SetIsAuthenticating false]
                  "Authenticate"
                  (cycleRequest Sample.PARTNER_NAME Sample.PARTNER_PASSWORD Sample.store)
                  eq_refl)).
Defined.

Lemma reauthenticate_transport_rejection_skips_callback_witness :
  sample_supplied Sample.store /\
  outcome_of
    (reauthenticate Sample.PARTNER_NAME Sample.PARTNER_PASSWORD Sample.UNABLE_TO_RETRY
       Sample.classify (Sample.rejecting (ErrorMessage "Network request failed"))
       "OpenApp" Sample.store) = Ok (Rejected (ErrorMessage "Network request failed")) /\
  Store.isAuthenticating
    (store_of
       (reauthenticate Sample.PARTNER_NAME Sample.PARTNER_PASSWORD Sample.UNABLE_TO_RETRY
          Sample.classify (Sample.rejecting (ErrorMessage "Network request failed"))
          "OpenApp" Sample.store)) = true.
Proof.
  split; [reflexivity |].
  destruct (reauthenticate_transport_rejection_skips_callback Sample.PARTNER_NAME
              Sample.PARTNER_PASSWORD Sample.UNABLE_TO_RETRY Sample.classify
              (Sample.rejecting (ErrorMessage "Network request failed"))
              "OpenApp" Sample.store (ErrorMessage "Network request failed")
              eq_refl eq_refl)
    as (Ho & _ & Hf & _).
  split; [exact Ho | exact Hf].
Defined.

Lemma reauthenticate_success_token_agrees_with_session_witness :
  sample_supplied Sample.store /\
  Response.jsonCode Sample.ok <> Sample.UNABLE_TO_RETRY /\
  getAuthToken (store_of (sample_cycle Sample.ok Sample.store)) = Str "tok1" /\
  Session.authToken (Store.session (store_of (sample_cycle Sample.ok Sample.store))) =
    Str "tok1".
Proof.
  split; [reflexivity |]. split; [discriminate |].
  destruct (reauthenticate_success_token_agrees_with_session Sample.PARTNER_NAME
              Sample.PARTNER_PASSWORD Sample.UNABLE_TO_RETRY Sample.classify
              (Sample.answering Sample.ok) "OpenApp" Sample.store Sample.ok
              eq_refl eq_refl ltac:(discriminate) eq_refl)
    as (_ & _ & Htoken).
  exact (Htoken "tok1" eq_refl).
Defined.

Lemma overlapping_first_response_clears_flag_witness :
  sample_supplied Sample.store /\
  Store.isAuthenticating
    (store_of
       (overlapping Sample.PARTNER_NAME Sample.PARTNER_PASSWORD Sample.UNABLE_TO_RETRY
          Sample.classify (Sample.answering Sample.ok) 2 "OpenApp" Sample.ok
          Sample.store)) = false /\
  count is_post
    (log_of
       (overlapping Sample.PARTNER_NAME Sample.PARTNER_PASSWORD Sample.UNABLE_TO_RETRY
          Sample.classify (Sample.answering Sample.ok) 2 "OpenApp" Sample.ok
          Sample.store)) = 2.
Proof.
  split; [reflexivity |].
  apply (overlapping_first_response_clears_flag Sample.PARTNER_NAME Sample.PARTNER_PASSWORD
           Sample.UNABLE_TO_RETRY Sample.classify (Sample.answering Sample.ok)
           2 "OpenApp" Sample.ok Sample.store).
  reflexivity.
Defined.

Lemma toggleOption_round_trip_witness :
  isOptionInList SampleRows.login [SampleRows.ann; SampleRows.bob] SampleRows.cat = false /\
  newSelectedOptions
    (toggleOption SampleRows.login
       (newSelectedOptions
          (toggleOption SampleRows.login [SampleRows.ann; SampleRows.bob] "ca"
             SampleRows.cat))
       "" SampleRows.cat) = [SampleRows.ann; SampleRows.bob].
Proof.
  split; [reflexivity |].
  apply (toggleOption_round_trip (Value * string) SampleRows.login
           [SampleRows.ann; SampleRows.bob] "ca" "" SampleRows.cat).
  reflexivity.
Defined.

Lemma sections_indexOffset_counts_rows_before_witness :
  sections SampleRows.translate SampleRows.isCurrentUser 3 [SampleRows.ann] SampleRows.found =
    [ {| title := Undefined; data := [SampleRows.ann]; shouldShow := true; indexOffset := 0 |};
      {| title := Str "common.recents"; data := [SampleRows.bob]; shouldShow := true;
         indexOffset := 1 |};
      {| title := Str "common.contacts"; data := []; shouldShow := false;
         indexOffset := 2 |} ]
      ++ {| title := Undefined; data := [SampleRows.cat]; shouldShow := true;
            indexOffset := 2 |} :: [] /\
  2 = rows
        [ {| title := Undefined; data := [SampleRows.ann]; shouldShow := true;
             indexOffset := 0 |};
          {| title := Str "common.recents"; data := [SampleRows.bob]; shouldShow := true;
             indexOffset := 1 |};
          {| title := Str "common.contacts"; data := []; shouldShow := false;
             indexOffset := 2 |} ].
Proof.
  split; [reflexivity |].
  exact (sections_indexOffset_counts_rows_before (Value * string) SampleRows.translate
           SampleRows.isCurrentUser 3 [SampleRows.ann] SampleRows.found _ []
           {| title := Undefined; data := [SampleRows.cat]; shouldShow := true;
              indexOffset := 2 |} eq_refl).
Defined.

Lemma getActivePolicies_idempotent_witness :
  getActivePolicies SamplePolicies.DELETE SamplePolicies.policies =
    Some [SamplePolicies.workspace] /\
  getActivePolicies SamplePolicies.DELETE (JS.Arr [SamplePolicies.workspace]) =
    Some [SamplePolicies.workspace].
Proof.
  split; [reflexivity |].
  apply (getActivePolicies_idempotent SamplePolicies.DELETE SamplePolicies.policies).
  reflexivity.
Defined.

Lemma getActivePolicies_none_pending_delete_witness :
  getActivePolicies SamplePolicies.DELETE SamplePolicies.policies =
    Some [SamplePolicies.workspace] /\
  Forall (fun policy => isPendingDeletePolicy SamplePolicies.DELETE policy = Some false)
    [SamplePolicies.workspace].
Proof.
  split; [reflexivity |].
  apply (getActivePolicies_none_pending_delete SamplePolicies.DELETE SamplePolicies.policies).
  reflexivity.
Defined.

Lemma hasPolicyMemberError_some_member_has_errors_witness :
  Forall (fun member => JS.nullish member = false) (JS.values SamplePolicies.members) /\
  hasPolicyMemberError SamplePolicies.members = Some true.
Proof.
  assert (H : Forall (fun member => JS.nullish member = false)
                (JS.values SamplePolicies.members))
    by (repeat constructor).
  split; [exact H |].
  exact (hasPolicyMemberError_some_member_has_errors SamplePolicies.members H).
Defined.

Lemma hasPolicyMemberError_throws_on_null_member_witness :
  JS.values SamplePolicies.membersWithNull =
    [JS.Obj [("role", JS.Str "admin")]] ++ JS.Null :: [JS.Obj [("errors", SamplePolicies.failure)]] /\
  hasPolicyMemberError SamplePolicies.membersWithNull = None.
Proof.
  split; [reflexivity |].
  apply (hasPolicyMemberError_throws_on_null_member SamplePolicies.membersWithNull
           [JS.Obj [("role", JS.Str "admin")]]
           [JS.Obj [("errors", SamplePolicies.failure)]] JS.Null).
  - reflexivity.
  - reflexivity.
  - repeat constructor.
Defined.

Lemma hasCustomUnitsError_top_level_key_witness :
  JS.isEmpty (JS.field (JS.field (JS.field SamplePolicies.withUnitErrors "customUnits") "U1")
                "errors") = false /\
  hasCustomUnitsError SamplePolicies.withUnitErrors = false.
Proof.
  split; [reflexivity |].
  exact (hasCustomUnitsError_top_level_key SamplePolicies.withUnitErrors _ eq_refl).
Defined.

Lemma tag_helpers_default_on_empty_witness :
  JS.isEmpty JS.Undefined = true /\
  getTag SamplePolicies.castPath JS.Undefined (Some "Department") = JS.Obj [] /\
  getTagListName JS.Undefined = JS.Str "" /\
  getTagList JS.Undefined (Some "Department") = JS.Obj [].
Proof.
  split; [reflexivity |].
  apply (tag_helpers_default_on_empty SamplePolicies.castPath JS.Undefined
           (Some "Department")).
  reflexivity.
Defined.

Lemma tag_helpers_agree_with_getTag_witness :
  getTagList SamplePolicies.tags (Some "Department") =
    JS.lodashGet (getTag SamplePolicies.castPath SamplePolicies.tags (Some "Department"))
      ["tags"] (JS.Obj []) /\
  getTagListName SamplePolicies.tags =
    JS.lodashGet (getTag SamplePolicies.castPath SamplePolicies.tags None)
      ["name"] (JS.Str "") /\
  getTagListName SamplePolicies.tags = JS.Str "Department".
Proof.
  assert (H : getTagList SamplePolicies.tags (Some "Department") =
                JS.lodashGet
                  (getTag SamplePolicies.castPath SamplePolicies.tags (Some "Department"))
                  ["tags"] (JS.Obj []) /\
              getTagListName SamplePolicies.tags =
                JS.lodashGet (getTag SamplePolicies.castPath SamplePolicies.tags None)
                  ["name"] (JS.Str "")).
  { apply (tag_helpers_agree_with_getTag SamplePolicies.castPath SamplePolicies.tags
             (Some "Department")).
    - intros key H. injection H as <-. reflexivity.
    - intros key H. injection H as <-. reflexivity. }
  destruct H as [H1 H2]. split; [exact H1 |]. split; [exact H2 | reflexivity].
Defined.

Lemma getIneligibleInvitees_extends_expensify_emails_witness :
  getIneligibleInvitees SamplePolicies.DELETE SamplePolicies.EXPENSIFY_EMAILS
    SamplePolicies.toString SamplePolicies.castPath
    SamplePolicies.members SamplePolicies.personalDetails =
    Some [JS.Str "concierge@expensify.com"; JS.Str "help@expensify.com";
          JS.Str "ann@example.com"] /\
  exists added,
    [JS.Str "concierge@expensify.com"; JS.Str "help@expensify.com";
     JS.Str "ann@example.com"] = map JS.Str SamplePolicies.EXPENSIFY_EMAILS ++ added /\
    length added <= length (JS.values SamplePolicies.members) /\
    Forall (fun email => JS.truthy email = true) added.
Proof.
  split; [reflexivity |].
  apply (getIneligibleInvitees_extends_expensify_emails SamplePolicies.DELETE
           SamplePolicies.EXPENSIFY_EMAILS SamplePolicies.toString SamplePolicies.castPath
           SamplePolicies.members SamplePolicies.personalDetails).
  reflexivity.
Defined.

Lemma getIneligibleInvitees_skips_invalid_members_witness :
  JS.values SamplePolicies.invalidMembers =
    [JS.Obj [("pendingAction", JS.Str "delete")]; JS.Obj [("errors", SamplePolicies.failure)]] /\
  getIneligibleInvitees SamplePolicies.DELETE SamplePolicies.EXPENSIFY_EMAILS
    SamplePolicies.toString SamplePolicies.castPath
    SamplePolicies.invalidMembers SamplePolicies.personalDetails =
    Some (map JS.Str SamplePolicies.EXPENSIFY_EMAILS).
Proof.
  split; [reflexivity |].
  apply (getIneligibleInvitees_skips_invalid_members SamplePolicies.DELETE
           SamplePolicies.EXPENSIFY_EMAILS SamplePolicies.toString SamplePolicies.castPath
           SamplePolicies.invalidMembers SamplePolicies.personalDetails).
  constructor; [split; [reflexivity | left; reflexivity] |].
  constructor; [split; [reflexivity | right; reflexivity] |].
  constructor.
Defined.
